(** * A Game Of Lore: the state record, the narrative engine, the saves and
      the game loop of [GOL.py]

    A shallow embedding of [StoryState] (with [to_dict] / [from_dict]), of
    [StoryEngine] ([clamp], [intro_scene], [generate_scene], the scene
    procedures, [apply_choice], [check_ending]), of [SaveManager] and of
    [game_loop].  Python integers are [Z], [str] is [string], the [flags]
    dictionary is a [gmap] keyed by strings, and the [random.Random] instance
    held by the engine is threaded explicitly as a value of an abstract type
    [G] with the interface [RandomSource]. *)

From Stdlib Require Import ZArith String Ascii List Lia.
From stdpp Require Import gmap strings list fin_maps pretty sorting.

#[local] Open Scope Z_scope.
#[local] Open Scope string_scope.

(** ** Characters that a string literal cannot hold directly *)

(** The double quote character (an escaped quote in the Python source). *)
Definition dq : string := String (ascii_of_nat 34) EmptyString.

(** The line feed (backslash-n in the Python source). *)
Definition nl : string := String (ascii_of_nat 10) EmptyString.

(** ** Values stored in [flags]

    The annotation says [Dict[str, bool]], but [intro_scene] also stores the
    demon lord's name, a [str], under ["demon_lord_name"]. *)

Inductive flagval :=
  | FBool (b : bool)
  | FStr (s : string).

#[global] Instance flagval_eq_dec : EqDecision flagval.
Proof. solve_decision. Defined.

(** Python truthiness of a flag value: [False] and the empty string are
    falsy. *)
Definition truthy (v : flagval) : bool :=
  match v with
  | FBool b => b
  | FStr EmptyString => false
  | FStr _ => true
  end.

(** [str(v)], as performed by an f-string or [str.format]. *)
Definition fmt (v : flagval) : string :=
  match v with
  | FBool true => "True"
  | FBool false => "False"
  | FStr s => s
  end.

(** ** The state record (dataclass [StoryState]) *)

Record StoryState := mkState {
  name : string;
  chapter : Z;
  location : string;
  health : Z;
  power : Z;
  morality : Z;
  notoriety : Z;
  trust_demon_lord : Z;
  bond_demon_lord : Z;
  inventory : list string;
  flags : gmap string flagval;
  history : list string;
  seed : Z
}.

(** [StoryState()]: every field at its declared default. *)
Definition default_state : StoryState :=
  {| name := "Nameless"; chapter := 0; location := "Demon Forest";
     health := 80; power := 20; morality := 0; notoriety := 0;
     trust_demon_lord := 10; bond_demon_lord := 0;
     inventory := ["Torn Cloak"; "Rusty Sword"];
     flags := ∅; history := []; seed := 0 |}.

(** Attribute assignments [st.f = v]. *)
Definition set_name (v : string) (st : StoryState) : StoryState :=
  {| name := v; chapter := chapter st; location := location st;
     health := health st; power := power st; morality := morality st;
     notoriety := notoriety st; trust_demon_lord := trust_demon_lord st;
     bond_demon_lord := bond_demon_lord st; inventory := inventory st;
     flags := flags st; history := history st; seed := seed st |}.

Definition set_chapter (v : Z) (st : StoryState) : StoryState :=
  {| name := name st; chapter := v; location := location st;
     health := health st; power := power st; morality := morality st;
     notoriety := notoriety st; trust_demon_lord := trust_demon_lord st;
     bond_demon_lord := bond_demon_lord st; inventory := inventory st;
     flags := flags st; history := history st; seed := seed st |}.

Definition set_location (v : string) (st : StoryState) : StoryState :=
  {| name := name st; chapter := chapter st; location := v;
     health := health st; power := power st; morality := morality st;
     notoriety := notoriety st; trust_demon_lord := trust_demon_lord st;
     bond_demon_lord := bond_demon_lord st; inventory := inventory st;
     flags := flags st; history := history st; seed := seed st |}.

Definition set_health (v : Z) (st : StoryState) : StoryState :=
  {| name := name st; chapter := chapter st; location := location st;
     health := v; power := power st; morality := morality st;
     notoriety := notoriety st; trust_demon_lord := trust_demon_lord st;
     bond_demon_lord := bond_demon_lord st; inventory := inventory st;
     flags := flags st; history := history st; seed := seed st |}.

Definition set_power (v : Z) (st : StoryState) : StoryState :=
  {| name := name st; chapter := chapter st; location := location st;
     health := health st; power := v; morality := morality st;
     notoriety := notoriety st; trust_demon_lord := trust_demon_lord st;
     bond_demon_lord := bond_demon_lord st; inventory := inventory st;
     flags := flags st; history := history st; seed := seed st |}.

Definition set_morality (v : Z) (st : StoryState) : StoryState :=
  {| name := name st; chapter := chapter st; location := location st;
     health := health st; power := power st; morality := v;
     notoriety := notoriety st; trust_demon_lord := trust_demon_lord st;
     bond_demon_lord := bond_demon_lord st; inventory := inventory st;
     flags := flags st; history := history st; seed := seed st |}.

Definition set_notoriety (v : Z) (st : StoryState) : StoryState :=
  {| name := name st; chapter := chapter st; location := location st;
     health := health st; power := power st; morality := morality st;
     notoriety := v; trust_demon_lord := trust_demon_lord st;
     bond_demon_lord := bond_demon_lord st; inventory := inventory st;
     flags := flags st; history := history st; seed := seed st |}.

Definition set_trust_demon_lord (v : Z) (st : StoryState) : StoryState :=
  {| name := name st; chapter := chapter st; location := location st;
     health := health st; power := power st; morality := morality st;
     notoriety := notoriety st; trust_demon_lord := v;
     bond_demon_lord := bond_demon_lord st; inventory := inventory st;
     flags := flags st; history := history st; seed := seed st |}.

Definition set_bond_demon_lord (v : Z) (st : StoryState) : StoryState :=
  {| name := name st; chapter := chapter st; location := location st;
     health := health st; power := power st; morality := morality st;
     notoriety := notoriety st; trust_demon_lord := trust_demon_lord st;
     bond_demon_lord := v; inventory := inventory st;
     flags := flags st; history := history st; seed := seed st |}.

Definition set_inventory (v : list string) (st : StoryState) : StoryState :=
  {| name := name st; chapter := chapter st; location := location st;
     health := health st; power := power st; morality := morality st;
     notoriety := notoriety st; trust_demon_lord := trust_demon_lord st;
     bond_demon_lord := bond_demon_lord st; inventory := v;
     flags := flags st; history := history st; seed := seed st |}.

Definition set_flags (v : gmap string flagval) (st : StoryState) : StoryState :=
  {| name := name st; chapter := chapter st; location := location st;
     health := health st; power := power st; morality := morality st;
     notoriety := notoriety st; trust_demon_lord := trust_demon_lord st;
     bond_demon_lord := bond_demon_lord st; inventory := inventory st;
     flags := v; history := history st; seed := seed st |}.

Definition set_history (v : list string) (st : StoryState) : StoryState :=
  {| name := name st; chapter := chapter st; location := location st;
     health := health st; power := power st; morality := morality st;
     notoriety := notoriety st; trust_demon_lord := trust_demon_lord st;
     bond_demon_lord := bond_demon_lord st; inventory := inventory st;
     flags := flags st; history := v; seed := seed st |}.

Definition set_seed (v : Z) (st : StoryState) : StoryState :=
  {| name := name st; chapter := chapter st; location := location st;
     health := health st; power := power st; morality := morality st;
     notoriety := notoriety st; trust_demon_lord := trust_demon_lord st;
     bond_demon_lord := bond_demon_lord st; inventory := inventory st;
     flags := flags st; history := history st; seed := v |}.

(** ** Dictionary and list operations on the containers of a state *)

(** [st.flags[k] = v] *)
Definition flag_store (k : string) (v : flagval) (st : StoryState) : StoryState :=
  set_flags (<[k := v]> (flags st)) st.

(** [st.flags.setdefault(k, v)]: stores only when [k] is absent. *)
Definition flag_setdefault (k : string) (v : flagval) (st : StoryState) : StoryState :=
  match flags st !! k with
  | Some _ => st
  | None => flag_store k v st
  end.

(** [st.flags.get(k, False)] or [st.flags.get(k)] read as a condition. *)
Definition flag_on (k : string) (st : StoryState) : bool :=
  match flags st !! k with
  | Some v => truthy v
  | None => false
  end.

(** [st.flags.get("demon_lord_name", "the Demon Lord")], formatted. *)
Definition demon_lord (st : StoryState) : string :=
  fmt (default (FStr "the Demon Lord") (flags st !! "demon_lord_name")).

(** [st.history.append(line)] *)
Definition history_append (line : string) (st : StoryState) : StoryState :=
  set_history (history st ++ [line]) st.

(** [list(dict.fromkeys(l))]: drops every repetition of an element already
    seen, keeping first occurrences in order. *)
Fixpoint fromkeys_from (seen : list string) (l : list string) : list string :=
  match l with
  | [] => []
  | x :: r =>
      if bool_decide (x ∈ seen) then fromkeys_from seen r
      else x :: fromkeys_from (x :: seen) r
  end.

Definition dict_fromkeys (l : list string) : list string := fromkeys_from [] l.

(** ** [StoryEngine.clamp] *)

Definition clamp (v lo hi : Z) : Z := Z.max lo (Z.min hi v).

(** ** The attributes that [mod] reaches through [getattr] / [setattr] *)

Inductive attr := Health | Power | Morality | Notoriety | TrustDemonLord.

Definition getattr (st : StoryState) (a : attr) : Z :=
  match a with
  | Health => health st
  | Power => power st
  | Morality => morality st
  | Notoriety => notoriety st
  | TrustDemonLord => trust_demon_lord st
  end.

Definition setattr (a : attr) (v : Z) (st : StoryState) : StoryState :=
  match a with
  | Health => set_health v st
  | Power => set_power v st
  | Morality => set_morality v st
  | Notoriety => set_notoriety v st
  | TrustDemonLord => set_trust_demon_lord v st
  end.

(** The local helper [mod(attr, delta, lo, hi)] of [apply_choice]. *)
Definition mod_ (a : attr) (delta lo hi : Z) (st : StoryState) : StoryState :=
  setattr a (clamp (getattr st a + delta) lo hi) st.

(** [st.bond_demon_lord = self.clamp(st.bond_demon_lord + d, 0, 100)] *)
Definition bond_up (d : Z) (st : StoryState) : StoryState :=
  set_bond_demon_lord (clamp (bond_demon_lord st + d) 0 100) st.

(** ** The pseudo-random source

    [random.Random] belongs to the Python standard library, not to the
    program, so the engine is parametrized by its interface: seeding, and the
    draw of an index below a positive bound that [choice] performs.  The
    only fact the engine relies on is that the drawn index is in range. *)

Class RandomSource (G : Type) := {
  (** [random.Random(seed)] and [rng.seed(seed)] *)
  rng_seed : Z -> G;
  (** [rng._randbelow(n)], the draw behind [rng.choice] *)
  rng_randbelow : nat -> G -> nat * G;
  (** [rng.random() < p] for the probability [p] given as a percentage *)
  rng_chance : Z -> G -> bool * G;
  rng_randbelow_lt :
    forall n g, (0 < n)%nat -> (fst (rng_randbelow n g) < n)%nat
}.

(** [rng.choice(seq)]: raises [IndexError] (here [None]) on an empty
    sequence, otherwise draws one index and returns that element. *)
Definition choice {G} `{RandomSource G} {A} (g : G) (l : list A) : option (A * G) :=
  match l with
  | [] => None
  | _ :: _ =>
      let '(i, g') := rng_randbelow (length l) g in
      match l !! i with
      | Some x => Some (x, g')
      | None => None
      end
  end.

(** ** Scenes

    A scene procedure mutates the state and returns the narration and the
    list of (choice text, choice tag) pairs. *)

Definition Scene : Type := string * list (string * string).

Definition scene_tense_camp (st : StoryState) : StoryState * Scene :=
  let dl := demon_lord st in
  let st := set_location "Forest Camp — Ember Clearing" st in
  (st,
   ("A small fire sputters beneath twisted pines. " +:+ dl
      +:+ " watches you from across the flames." +:+ nl
      +:+ "Trust flickers like kindling. The forest listens.",
    [("Share a painful memory to earn her empathy.", "camp_confide");
     ("Hone your blade in silence; let actions speak.", "camp_silence");
     ("Probe her motives—why rule the demons at all?", "camp_probe");
     ("Scout the perimeter; danger stalks the dark.", "camp_scout")])).

Definition scene_training (st : StoryState) : StoryState * Scene :=
  let dl := demon_lord st in
  let st := set_location "Obsidian Glade — Training Stones" st in
  (st,
   ("In the Obsidian Glade, " +:+ dl
      +:+ " tests you. Demonic sigils fracture the air." +:+ nl
      +:+ "Power strains your scars as you push beyond mortal limits.",
    [("Master a defensive ward to shield the weak.", "train_defense");
     ("Channel wrath—strike harder, faster, crueler.", "train_wrath");
     ("Synchronize with " +:+ dl +:+ "'s rhythm; trust the dance of blades.",
      "train_sync")])).

Definition scene_council (st : StoryState) : StoryState * Scene :=
  let dl := demon_lord st in
  let st := set_location "Eclipse Hall — Council of Cinders" st in
  (st,
   (dl +:+ "'s lieutenants argue under lanterns filled with captured starlight."
      +:+ nl
      +:+ "War or peace? Retaliation or secrecy? They seek your counsel.",
    [("Advise diplomacy—seek proof of the kingdom's treachery.", "council_diplomacy");
     ("Plan raids on corrupt nobles and supply lines.", "council_raids");
     ("Propose a secret parley with a sympathetic hero.", "council_parley")])).

Definition scene_oath_bond (st : StoryState) : StoryState * Scene :=
  let dl := demon_lord st in
  let st := set_location "Moonwell — Mirror of Vows" st in
  (st,
   ("Beside the Moonwell, " +:+ dl +:+ " offers her hand. " +:+ dq
      +:+ "We choose each other—against crown and fate." +:+ dq +:+ nl
      +:+ "The water reflects futures you barely recognize.",
    [("Swear an oath of alliance.", "oath_sworn");
     ("Hesitate—the cost of vows is always hidden.", "oath_hesitate");
     ("Refuse—freedom above all.", "oath_refuse")])).

Definition scene_spy_report (st : StoryState) : StoryState * Scene :=
  let st := set_location "Shadespine — Scout's Path" st in
  (st,
   ("A demon scout kneels, breathless: the kingdom moves hunters into the forest."
      +:+ nl
      +:+ "They bear your crest—bait for a public execution.",
    [("Intercept and expose the ruse.", "spy_intercept");
     ("Turn the ambush onto the hunters.", "spy_reverse");
     ("Ignore; focus on power first.", "spy_ignore")])).

Definition scene_ambush (st : StoryState) : StoryState * Scene :=
  let st := set_location "Ravine Verge — Broken Bridge" st in
  (st,
   ("You spot royal scouts across a broken bridge, whispering your name like a curse."
      +:+ nl
      +:+ "Their signal mirrors glint. A choice, sharp as shale.",
    [("Strike from shadow—no witnesses.", "ambush_shadow");
     ("Seize a scout alive for information.", "ambush_capture");
     ("Let them flee; plant fear and rumor.", "ambush_letgo")])).

Definition scene_rescue (st : StoryState) : StoryState * Scene :=
  let st := set_location "Cairn Road — Bleak Mile" st in
  (st,
   ("A caravan of refugees stumbles under the weight of injustice. Bandits circle."
      +:+ nl
      +:+ "You hear a child's cough beneath the wind.",
    [("Shield the caravan; take the blows for them.", "rescue_shield");
     ("Outwit the bandits with a ruse.", "rescue_ruse");
     ("Walk away. Mercy is a luxury.", "rescue_walk")])).

Definition scene_grim_bargain (st : StoryState) : StoryState * Scene :=
  let dl := demon_lord st in
  let st := set_location "Thorn Altar — Price of Power" st in
  (st,
   ("A thorned altar hums with forbidden strength. " +:+ dl
      +:+ "'s gaze is unreadable." +:+ nl
      +:+ "The altar grants might… and takes what you value most.",
    [("Bleed for power: sacrifice a memory.", "bargain_memory");
     ("Spare yourself—reject the altar.", "bargain_reject");
     ("Offer the altar a token from your betrayers.", "bargain_token")])).

Definition scene_ruins (st : StoryState) : StoryState * Scene :=
  let st := set_location "Ancient Ruins — Vault of Mists" st in
  (st,
   ("Fog curls around cracked archways. Glyphs speak of heroes who burned their own ages ago."
      +:+ nl
      +:+ "A vault door breathes cold secrets.",
    [("Study the glyphs for hidden history.", "ruins_study");
     ("Force the vault—whatever lies within is yours.", "ruins_force");
     ("Leave a mark: a promise to return stronger.", "ruins_mark")])).

Definition scene_wild_hunt (st : StoryState) : StoryState * Scene :=
  let st := set_location "Night Plains — The Wild Hunt" st in
  (st,
   ("Horns sound. Spectral riders rise like storm-surf, seeking a worthy quarry."
      +:+ nl
      +:+ "They circle, inviting chase or challenge.",
    [("Race with them; learn their paths.", "hunt_race");
     ("Challenge the huntmaster to single combat.", "hunt_duel");
     ("Hide and observe; knowledge first.", "hunt_hide")])).

Definition scene_whispers (st : StoryState) : StoryState * Scene :=
  let st := set_location "Whispering Trees — Root of Echoes" st in
  (st,
   ("Leaves speak in voices you once trusted. They tell different truths now."
      +:+ nl
      +:+ "One whisper carries the name of a hero who betrayed you.",
    [("Follow the whisper to its source.", "whisper_follow");
     ("Silence the voices with a ward.", "whisper_ward");
     ("Ask " +:+ demon_lord st +:+ " to listen with you.", "whisper_together")])).

(** The candidate list built by [generate_scene] before the draw
    (the statements between [archetypes = []] and [rng.choice]). *)
Definition eligible_archetypes (st : StoryState) : list string :=
  (let archetypes := [] in
  let archetypes :=
    if flag_on "met_demon_lord" st then
      let archetypes :=
        if (trust_demon_lord st >=? 60)%Z && negb (flag_on "oath_bound" st)
        then archetypes ++ ["oath_bond"] else archetypes in
      if (trust_demon_lord st >=? 30)%Z
      then archetypes ++ ["council"; "training"]
      else archetypes ++ ["tense_camp"]
    else archetypes in
  let archetypes :=
    if flag_on "vow_revenge" st
    then archetypes ++ ["spy_report"; "ambush_king_scouts"] else archetypes in
  let archetypes :=
    if (morality st >=? 40)%Z
    then archetypes ++ ["rescue_travelers"] else archetypes in
  let archetypes :=
    if (morality st <=? -40)%Z
    then archetypes ++ ["grim_bargain"] else archetypes in
  archetypes ++ ["mystic_ruins"; "wild_hunt"; "whispering_trees"])%list.

(** The dispatch on the drawn archetype, with its generic fallback. *)
Definition dispatch (chosen : string) (st : StoryState) : StoryState * Scene :=
  if chosen =? "oath_bond" then scene_oath_bond st
  else if chosen =? "council" then scene_council st
  else if chosen =? "training" then scene_training st
  else if chosen =? "tense_camp" then scene_tense_camp st
  else if chosen =? "spy_report" then scene_spy_report st
  else if chosen =? "ambush_king_scouts" then scene_ambush st
  else if chosen =? "rescue_travelers" then scene_rescue st
  else if chosen =? "grim_bargain" then scene_grim_bargain st
  else if chosen =? "mystic_ruins" then scene_ruins st
  else if chosen =? "wild_hunt" then scene_wild_hunt st
  else if chosen =? "whispering_trees" then scene_whispers st
  else scene_tense_camp st.

Definition demon_names : list string :=
  ["Nyx"; "Velaria"; "Lilithe"; "Morrigan"; "Eresh"; "Seraphine"; "Astariel"; "Noctra"].

Section Engine.
Context {G : Type} `{RandomSource G}.

(** [self._p(p_true)], with [p_true] as a percentage. *)
Definition _p (pct : Z) (g : G) : bool * G := rng_chance pct g.

Definition intro_scene (g : G) (st : StoryState) : option (G * StoryState * Scene) :=
  let st := set_chapter 1 st in
  let st := set_location "Demon Forest — Thornsfall Edge" st in
  let st := flag_setdefault "betrayed" (FBool true) st in
  let st := flag_setdefault "met_demon_lord" (FBool true) st in
  let st := flag_setdefault "allied" (FBool false) st in
  let st := flag_setdefault "vow_revenge" (FBool false) st in
  let st := flag_setdefault "seeking_truth" (FBool true) st in
  let st :=
    history_append
      "Banished to the Demon Forest after betrayal by the kingdom and fellow heroes."
      st in
  let named :=
    match flags st !! "demon_lord_name" with
    | Some v => if truthy v then Some (v, g) else None
    | None => None
    end in
  let drawn :=
    match named with
    | Some r => Some r
    | None =>
        match choice g demon_names with
        | Some (n, g') => Some (FStr n, g')
        | None => None
        end
    end in
  match drawn with
  | None => None
  | Some (dl_name, g') =>
      let st := flag_store "demon_lord_name" dl_name st in
      let text :=
        "You awaken in briars and ash. The kingdom you died to protect has cast you out."
          +:+ nl
          +:+ "Branches claw your cloak as you stumble through the Demon Forest. A presence watches."
          +:+ nl +:+ nl
          +:+ "She steps from the gloom: the Demon Lord, a girl with eyes like eclipsed moons."
          +:+ nl
          +:+ dq +:+ "I am " +:+ fmt dl_name +:+ ". Your light reeks of betrayal,"
          +:+ dq +:+ " she says. " +:+ dq +:+ "Why should I spare you?" +:+ dq in
      let choices :=
        [("Plead your case: you were framed and seek only the truth.", "intro_plead");
         ("Swear vengeance: you'll raze the kingdom that betrayed you.", "intro_vengeance");
         ("Offer a pact: strength for strength—become uneasy allies.", "intro_pact");
         ("Draw steel: if she wants blood, she'll earn it.", "intro_fight")] in
      Some (g', st, (text, choices))
  end.

(** [generate_scene], returning next to the scene the archetype that was
    drawn ([None] for the introductory scene, which draws none). *)
Definition generate_scene_arch (g : G) (st : StoryState)
  : option (G * StoryState * Scene * option string) :=
  if (chapter st =? 0)%Z then
    match intro_scene g st with
    | Some r => Some (r, None)
    | None => None
    end
  else
    match choice g (eligible_archetypes st) with
    | None => None
    | Some (chosen, g') =>
        let '(st', sc) := dispatch chosen st in
        Some (g', st', sc, Some chosen)
    end.

Definition generate_scene (g : G) (st : StoryState) : option (G * StoryState * Scene) :=
  option_map fst (generate_scene_arch g st).

End Engine.

(** ** [StoryEngine.apply_choice]

    The tag is compared with each known tag in source order; the first
    matching branch applies its effects and returns its narration.  The
    demon lord's name is read, and [chapter] incremented, before the
    comparison chain. *)

Definition fallback_narration : string :=
  "Time moves, yet nothing decisive happens. Perhaps the next choice will cut deeper.".

Definition apply_choice (st : StoryState) (tag : string) : StoryState * string :=
  let dl := demon_lord st in
  let st := set_chapter (chapter st + 1) st in
  (* Intro *)
  if tag =? "intro_plead" then
    let st := mod_ Morality 10 (-100) 100 st in
    let st := mod_ TrustDemonLord 15 0 100 st in
    let st := flag_store "seeking_truth" (FBool true) st in
    (st, "You speak plainly of betrayal. " +:+ dl
           +:+ " studies the cracks in your voice and lowers her hand. " +:+ dq
           +:+ "Truth cuts deeper than any blade," +:+ dq +:+ " she says.")
  else if tag =? "intro_vengeance" then
    let st := mod_ Morality (-10) (-100) 100 st in
    let st := mod_ Power 10 0 100 st in
    let st := flag_store "vow_revenge" (FBool true) st in
    let st := mod_ TrustDemonLord 5 0 100 st in
    (st, "Vengeance burns like pitch. " +:+ dl
           +:+ " smiles—a small, dangerous thing. " +:+ dq
           +:+ "Then we understand each other." +:+ dq)
  else if tag =? "intro_pact" then
    let st := mod_ TrustDemonLord 20 0 100 st in
    let st := flag_store "allied" (FBool true) st in
    (st, "You offer terms, not supplication. " +:+ dl
           +:+ " clasps your wrist. " +:+ dq
           +:+ "We hunt different prey—but we can share the trail." +:+ dq)
  else if tag =? "intro_fight" then
    let st := mod_ Health (-15) 0 100 st in
    let st := mod_ Power 5 0 100 st in
    let st := mod_ TrustDemonLord 10 0 100 st in
    (st, "Steel rings. You draw blood and pay in kind. " +:+ dl
           +:+ " laughs like thunder far away. " +:+ dq
           +:+ "Live, then. Earn the right to stand." +:+ dq)
  (* Camp *)
  else if tag =? "camp_confide" then
    let st := mod_ Morality 5 (-100) 100 st in
    let st := mod_ TrustDemonLord 12 0 100 st in
    (st, "Your memory is a splinter. You let it out. " +:+ dl
           +:+ " listens without mercy—without judgment. The fire warms, just a little.")
  else if tag =? "camp_silence" then
    let st := mod_ Power 5 0 100 st in
    let st := mod_ TrustDemonLord 2 0 100 st in
    (st, "You sharpen steel and silence. Sparks chart constellations no map has named.")
  else if tag =? "camp_probe" then
    let st := mod_ TrustDemonLord (-3) 0 100 st in
    let st := mod_ Notoriety 5 0 100 st in
    (st, "Questions are knives. " +:+ dl
           +:+ " answers some and turns aside others. You learn enough to be wary—and useful.")
  else if tag =? "camp_scout" then
    let st := mod_ Power 3 0 100 st in
    let st := mod_ Health 3 0 100 st in
    (st, "You pace the warding ring. Footprints. A bent reed. The forest is a chessboard and you are learning the moves.")
  (* Training *)
  else if tag =? "train_defense" then
    let st := mod_ Power 7 0 100 st in
    let st := mod_ Morality 5 (-100) 100 st in
    let st := mod_ TrustDemonLord 5 0 100 st in
    (st, "Your ward blooms like a quiet star. It holds when claws descend. Somewhere, someone will live because of this.")
  else if tag =? "train_wrath" then
    let st := mod_ Power 12 0 100 st in
    let st := mod_ Morality (-6) (-100) 100 st in
    let st := mod_ Notoriety 6 0 100 st in
    (st, "You inhale the storm and exhale ruin. The stones remember your name as a crack.")
  else if tag =? "train_sync" then
    let st := mod_ Power 6 0 100 st in
    let st := mod_ TrustDemonLord 10 0 100 st in
    let st := bond_up 1 st in
    (st, "Step, strike, breathe—together. " +:+ dl
           +:+ "'s motion becomes a language you begin to read.")
  (* Council *)
  else if tag =? "council_diplomacy" then
    let st := mod_ Morality 8 (-100) 100 st in
    let st := mod_ TrustDemonLord 6 0 100 st in
    let st := flag_store "seeking_truth" (FBool true) st in
    (st, "You chart a path of proof and patience. The hall quiets; even war can listen.")
  else if tag =? "council_raids" then
    let st := mod_ Power 8 0 100 st in
    let st := mod_ Notoriety 10 0 100 st in
    let st := flag_store "vow_revenge" (FBool true) st in
    (st, "Targets line the map like sins. You thread a needle through them made of fire.")
  else if tag =? "council_parley" then
    let st := mod_ Morality 3 (-100) 100 st in
    let st := mod_ Notoriety 3 0 100 st in
    let st := flag_store "parley_set" (FBool true) st in
    (st, "A secret parley—dangerous, delicate. If it holds, the story changes.")
  (* Oath *)
  else if tag =? "oath_sworn" then
    let st := mod_ TrustDemonLord 20 0 100 st in
    let st := flag_store "oath_bound" (FBool true) st in
    let st := bond_up 3 st in
    (st, "You swear by fang and star. The Moonwell seals the promise with a chill that tastes like dawn.")
  else if tag =? "oath_hesitate" then
    let st := mod_ TrustDemonLord (-5) 0 100 st in
    (st, "You ask for time. The Moonwell reflects two strangers trying to be allies.")
  else if tag =? "oath_refuse" then
    let st := mod_ TrustDemonLord (-12) 0 100 st in
    let st := flag_store "allied" (FBool false) st in
    (st, "You step back from the brink. Freedom is a lonely country.")
  (* Spies and ambush *)
  else if tag =? "spy_intercept" then
    let st := mod_ Morality 4 (-100) 100 st in
    let st := mod_ Notoriety 5 0 100 st in
    (st, "You unmask the trap and free the bait. Rumors begin to turn toward truth.")
  else if tag =? "spy_reverse" then
    let st := mod_ Power 7 0 100 st in
    let st := mod_ Morality (-2) (-100) 100 st in
    let st := mod_ Notoriety 9 0 100 st in
    (st, "Hunters become the hunted. The forest keeps your secrets.")
  else if tag =? "spy_ignore" then
    let st := mod_ Power 4 0 100 st in
    let st := mod_ Morality (-4) (-100) 100 st in
    (st, "You let the game play on without you—for now.")
  else if tag =? "ambush_shadow" then
    let st := mod_ Power 8 0 100 st in
    let st := mod_ Morality (-6) (-100) 100 st in
    let st := mod_ Notoriety 8 0 100 st in
    (st, "No witnesses. No mercy. The bridge remembers only silence.")
  else if tag =? "ambush_capture" then
    let st := mod_ Morality 6 (-100) 100 st in
    let st := mod_ Notoriety 4 0 100 st in
    (st, "Under your blade, a scout chooses life—and answers. Names spill like beads from a torn chain.")
  else if tag =? "ambush_letgo" then
    let st := mod_ Morality 2 (-100) 100 st in
    let st := mod_ Notoriety 6 0 100 st in
    (st, "Mercy travels faster than hoofbeats. Fear travels faster still.")
  (* Rescue *)
  else if tag =? "rescue_shield" then
    let st := mod_ Morality 10 (-100) 100 st in
    let st := mod_ Health (-8) 0 100 st in
    let st := mod_ TrustDemonLord 4 0 100 st in
    (st, "You take the blows others could not bear. A child's cough becomes a laugh.")
  else if tag =? "rescue_ruse" then
    let st := mod_ Morality 6 (-100) 100 st in
    let st := mod_ Power 3 0 100 st in
    (st, "Illusions, footprints, a staged cry—bandits chase ghosts while the caravan slips free.")
  else if tag =? "rescue_walk" then
    let st := mod_ Morality (-10) (-100) 100 st in
    let st := mod_ Power 4 0 100 st in
    let st := mod_ Notoriety 5 0 100 st in
    (st, "You turn away. The road learns your name without deciding if it loves you.")
  (* Grim bargain *)
  else if tag =? "bargain_memory" then
    let st := mod_ Power 15 0 100 st in
    let st := mod_ Morality (-8) (-100) 100 st in
    let st := history_append "You traded a cherished memory at the Thorn Altar." st in
    (st, "You give the altar a memory of home. Power rushes in to fill the hollow it leaves.")
  else if tag =? "bargain_reject" then
    let st := mod_ Morality 5 (-100) 100 st in
    let st := mod_ TrustDemonLord 3 0 100 st in
    (st, "You walk away from easy strength. The altar hums, disappointed.")
  else if tag =? "bargain_token" then
    let st := mod_ Power 10 0 100 st in
    let st := mod_ Notoriety 7 0 100 st in
    (st, "You place a betrayer's token on the altar. The thorns drink deep and answer with power.")
  (* Ruins *)
  else if tag =? "ruins_study" then
    let st := mod_ Power 4 0 100 st in
    let st := mod_ Morality 2 (-100) 100 st in
    let st :=
      history_append "Discovered records of prior heroes consumed by their crowns." st in
    (st, "Glyphs confess: heroes burned an age to keep a throne warm. Truth is an ember you pocket.")
  else if tag =? "ruins_force" then
    let st := mod_ Power 8 0 100 st in
    let st := mod_ Morality (-4) (-100) 100 st in
    let st := set_inventory (inventory st ++ ["Vault Relic"]) st in
    let st := set_inventory (dict_fromkeys (inventory st)) st in
    (st, "The vault yields with a scream of stone. Inside waits a relic that knows your pulse.")
  else if tag =? "ruins_mark" then
    let st := mod_ Morality 1 (-100) 100 st in
    let st := mod_ TrustDemonLord 2 0 100 st in
    (st, "You leave a mark, not a wound. Even ruins deserve a future.")
  (* Wild Hunt *)
  else if tag =? "hunt_race" then
    let st := mod_ Power 5 0 100 st in
    let st := mod_ Notoriety 3 0 100 st in
    (st, "You run with ghosts until your lungs are bells. They teach you shortcuts through moonlight.")
  else if tag =? "hunt_duel" then
    let st := mod_ Power 10 0 100 st in
    let st := mod_ Health (-6) 0 100 st in
    let st := mod_ Notoriety 6 0 100 st in
    (st, "Steel rings against antler and oath. You win a scar and a salute.")
  else if tag =? "hunt_hide" then
    let st := mod_ Morality 2 (-100) 100 st in
    (st, "You watch unseen as the Wild Hunt redraws the night's borders.")
  (* Whispers *)
  else if tag =? "whisper_follow" then
    let st := mod_ Notoriety 4 0 100 st in
    let st := flag_store "betrayer_trail" (FBool true) st in
    (st, "The whisper leads to a sigil cut in bark: a hero's mark. The trail warms under your gaze.")
  else if tag =? "whisper_ward" then
    let st := mod_ Power 3 0 100 st in
    let st := mod_ Morality 1 (-100) 100 st in
    (st, "You hush the forest with a ward that tastes like peppermint and thunder.")
  else if tag =? "whisper_together" then
    let st := mod_ TrustDemonLord 8 0 100 st in
    let st := bond_up 1 st in
    (st, "You and " +:+ dl
           +:+ " listen as one. The voices braid into a map only two can read.")
  (* Unknown tag fallback *)
  else (st, fallback_narration).

(** The tags that [apply_choice] compares against, in source order. *)
Definition known_tags : list string :=
  ["intro_plead"; "intro_vengeance"; "intro_pact"; "intro_fight";
   "camp_confide"; "camp_silence"; "camp_probe"; "camp_scout";
   "train_defense"; "train_wrath"; "train_sync";
   "council_diplomacy"; "council_raids"; "council_parley";
   "oath_sworn"; "oath_hesitate"; "oath_refuse";
   "spy_intercept"; "spy_reverse"; "spy_ignore";
   "ambush_shadow"; "ambush_capture"; "ambush_letgo";
   "rescue_shield"; "rescue_ruse"; "rescue_walk";
   "bargain_memory"; "bargain_reject"; "bargain_token";
   "ruins_study"; "ruins_force"; "ruins_mark";
   "hunt_race"; "hunt_duel"; "hunt_hide";
   "whisper_follow"; "whisper_ward"; "whisper_together"].

(** ** [StoryEngine.check_ending] *)

Definition ending_death : string :=
  "Your story ends beneath black boughs. Even the forest bows its head.".

Definition ending_alliance (dl : string) : string :=
  "Side by side with " +:+ dl
    +:+ ", you confront the crown. Proof and power make a quiet revolution." +:+ nl
    +:+ "The heroes who betrayed you kneel, not to force, but to truth. The forest grows less afraid.".

Definition ending_sovereign : string :=
  "Feared and unstoppable, you become a storm that keeps its own counsel. Kings learn to read the sky.".

Definition ending_guardian : string :=
  "You choose to guard rather than rule. Roads are safer where your shadow falls.".

Definition ending_exile : string :=
  "Years pass like leaves. Your name fades, but the people you saved remember." +:+ nl
    +:+ "Not all legends need thrones.".

Definition check_ending (st : StoryState) : option string :=
  let dl := demon_lord st in
  if (health st <=? 0)%Z then Some ending_death
  else if (trust_demon_lord st >=? 80)%Z && (power st >=? 70)%Z
          && flag_on "oath_bound" st
  then Some (ending_alliance dl)
  else if (notoriety st >=? 80)%Z && (power st >=? 80)%Z
          && (morality st <=? -30)%Z
  then Some ending_sovereign
  else if (morality st >=? 80)%Z && (power st >=? 50)%Z
  then Some ending_guardian
  else if (chapter st >=? 30)%Z && (trust_demon_lord st <? 40)%Z
          && (notoriety st <? 40)%Z
  then Some ending_exile
  else None.

(** ** [new_game]

    The state a new playthrough starts from; the player's answer (already
    stripped) and the seed derived from it and the clock are inputs. *)
Definition new_game (answer : string) (seed_ : Z) : StoryState :=
  let name_ := match answer with EmptyString => "Nameless" | _ => answer end in
  let st := set_seed seed_ (set_name name_ default_state) in
  set_flags
    (<["seeking_truth" := FBool true]>
       (<["allied" := FBool false]>
          (<["met_demon_lord" := FBool true]>
             (<["betrayed" := FBool true]> ∅))))
    st.


(** ** The incidental drift of [game_loop] *)

(** The integers the incidental drift chooses from. *)
Definition drift_steps : list Z := [-2; -1; 1; 2].

(** [state.health = engine.clamp(state.health + d, 0, 100)] *)
Definition nudge_health (d : Z) (st : StoryState) : StoryState :=
  set_health (clamp (health st + d) 0 100) st.

Section Drift.
Context {G : Type} `{RandomSource G}.

(** [if engine._p(0.15): state.health = ...rng.choice([-2, -1, +1, +2])...] *)
Definition drift (g : G) (st : StoryState) : option (G * StoryState) :=
  let '(hit, g) := _p 15 g in
  if hit then
    match choice g drift_steps with
    | Some (d, g') => Some (g', nudge_health d st)
    | None => None
    end
  else Some (g, st).

End Drift.

(** The states after each of a sequence of applied choices. *)
Fixpoint apply_trace (st : StoryState) (tags : list string) : list StoryState :=
  match tags with
  | [] => []
  | tag :: rest =>
      let st' := fst (apply_choice st tag) in
      st' :: apply_trace st' rest
  end.

(** The state after a whole sequence of applied choices. *)
Definition apply_all (st : StoryState) (tags : list string) : StoryState :=
  foldl (fun s tag => fst (apply_choice s tag)) st tags.

(** ** Serialization: [to_dict] and [from_dict]

    A mapping is a dictionary from keys to JSON-like values; numbers with a
    fraction, which no state serializes to, are left out. *)

#[local] Unset Elimination Schemes.
Inductive value :=
  | VNone
  | VInt (z : Z)
  | VBool (b : bool)
  | VStr (s : string)
  | VList (l : list value)
  | VDict (m : gmap string value).
#[local] Set Elimination Schemes.

Definition of_flagval (v : flagval) : value :=
  match v with
  | FBool b => VBool b
  | FStr s => VStr s
  end.

(** The items of [asdict(self)], in field order. *)
Definition to_items (st : StoryState) : list (string * value) :=
  [("name", VStr (name st));
   ("chapter", VInt (chapter st));
   ("location", VStr (location st));
   ("health", VInt (health st));
   ("power", VInt (power st));
   ("morality", VInt (morality st));
   ("notoriety", VInt (notoriety st));
   ("trust_demon_lord", VInt (trust_demon_lord st));
   ("bond_demon_lord", VInt (bond_demon_lord st));
   ("inventory", VList (VStr <$> inventory st));
   ("flags", VDict (of_flagval <$> flags st));
   ("history", VList (VStr <$> history st));
   ("seed", VInt (seed st))].

Definition to_dict (st : StoryState) : gmap string value :=
  list_to_map (to_items st).

(** The keyword arguments that the constructor [StoryState(...)] accepts. *)
Definition field_names : list string :=
  ["name"; "chapter"; "location"; "health"; "power"; "morality"; "notoriety";
   "trust_demon_lord"; "bond_demon_lord"; "inventory"; "flags"; "history"; "seed"].

(** [d.setdefault(k, v)] *)
Definition dict_setdefault {V : Type} (k : string) (v : V) (d : gmap string V)
  : gmap string V :=
  match d !! k with
  | Some _ => d
  | None => <[k := v]> d
  end.

(** The exceptions that the modelled code raises. *)
Inductive exn :=
  | TypeError
  | ValueError
  | AttributeError
  | IndexError
  | JSONDecodeError
  | FileNotFoundError.

(** What a conversion [list(x)] or [dict(x)] does: it returns a value, it
    raises, or it returns a value that the mappings here cannot express
    ([Outside]): the keys of a dictionary in insertion order, which a [gmap]
    does not record, or a dictionary with a key that is not a string. *)
Inductive conv (A : Type) :=
  | Conv (a : A)
  | Raise (e : exn)
  | Outside.
Arguments Conv {A} a.
Arguments Raise {A} e.
Arguments Outside {A}.

(** Iterating a [str] yields its code points; a [string] here holds the
    UTF-8 bytes, so each continuation byte stays with the byte before it. *)
Definition is_continuation (c : ascii) : bool :=
  let n := nat_of_ascii c in (128 <=? n)%nat && (n <? 192)%nat.

Definition starts_with_continuation (s : string) : bool :=
  match s with
  | String c _ => is_continuation c
  | EmptyString => false
  end.

Fixpoint code_points (s : string) : list string :=
  match s with
  | EmptyString => []
  | String c r =>
      if starts_with_continuation r then
        match code_points r with
        | p :: ps => String c p :: ps
        | [] => [String c EmptyString]
        end
      else String c EmptyString :: code_points r
  end.

(** [list(x)] *)
Definition py_list (x : value) : conv (list value) :=
  match x with
  | VList l => Conv l
  | VStr s => Conv (VStr <$> code_points s)
  | VDict _ => Outside
  | VNone | VInt _ | VBool _ => Raise TypeError
  end.

(** One element of the sequence given to [dict(...)], read as a key and a
    value: it must be an iterable of length 2 whose first element is
    hashable. *)
Inductive pair_result :=
  | PairStr (k : string) (v : value)
  | PairOther
  | PairRaise (e : exn).

Definition py_pair (x : value) : pair_result :=
  match x with
  | VList [VStr k; v] => PairStr k v
  | VList [VNone; _] | VList [VInt _; _] | VList [VBool _; _] => PairOther
  | VList [VList _; _] | VList [VDict _; _] => PairRaise TypeError
  | VList _ => PairRaise ValueError
  | VStr s =>
      match code_points s with
      | [k; v] => PairStr k (VStr v)
      | _ => PairRaise ValueError
      end
  | VDict m => if (size m =? 2)%nat then PairOther else PairRaise ValueError
  | VNone | VInt _ | VBool _ => PairRaise TypeError
  end.

(** The loop of [dict(...)] over a sequence: later pairs overwrite earlier
    ones, and the first element that is not a pair raises. *)
Fixpoint py_dict_pairs (xs : list value) (acc : gmap string value)
    (outside : bool) : conv (gmap string value) :=
  match xs with
  | [] => if outside then Outside else Conv acc
  | x :: rest =>
      match py_pair x with
      | PairStr k v => py_dict_pairs rest (<[k := v]> acc) outside
      | PairOther => py_dict_pairs rest acc true
      | PairRaise e => Raise e
      end
  end.

(** [dict(x)] *)
Definition py_dict (x : value) : conv (gmap string value) :=
  match x with
  | VDict m => Conv m
  | VList l => py_dict_pairs l ∅ false
  | VStr s => py_dict_pairs (VStr <$> code_points s) ∅ false
  | VNone | VInt _ | VBool _ => Raise TypeError
  end.

(** The outcome of [from_dict]: the record built, given by its attributes;
    an exception; or a record with an attribute that the mappings here
    cannot express (see [conv]).  The constructor of a dataclass stores its
    arguments as they are, whatever the annotations say, so the attributes
    are values of any type. *)
Inductive outcome :=
  | Ok (attrs : gmap string value)
  | Raises (e : exn)
  | OkOutside.

(** [d[k] = convert(d.get(k, empty))], on the way through [from_dict]: the
    mapping so far, or the exception, and whether a conversion before left
    the mappings that can be expressed. *)
Definition reconvert (convert : value -> conv value) (k : string) (empty : value)
    (acc : conv (gmap string value * bool)) : conv (gmap string value * bool) :=
  match acc with
  | Conv (d, outside) =>
      match convert (default empty (d !! k)) with
      | Conv v => Conv (<[k := v]> d, outside)
      | Raise e => Raise e
      | Outside => Conv (d, true)
      end
  | _ => acc
  end.

Definition to_list_value (x : value) : conv value :=
  match py_list x with
  | Conv l => Conv (VList l)
  | Raise e => Raise e
  | Outside => Outside
  end.

Definition to_dict_value (x : value) : conv value :=
  match py_dict x with
  | Conv m => Conv (VDict m)
  | Raise e => Raise e
  | Outside => Outside
  end.

(** The first three steps of [from_dict]: the defaults are merged in with
    [setdefault], then the inventory, the flags and the history are replaced
    by [list(...)], [dict(...)] and [list(...)] of themselves. *)
Definition merge_defaults (d : gmap string value) : gmap string value :=
  let defaults := default_state in
  foldl (fun d '(k, v) => dict_setdefault k v d) d (to_items defaults).

Definition convert_containers (d : gmap string value)
  : conv (gmap string value * bool) :=
  reconvert to_list_value "history" (VList [])
    (reconvert to_dict_value "flags" (VDict ∅)
       (reconvert to_list_value "inventory" (VList [])
          (Conv (d, false)))).

(** [from_dict]: after these steps the constructor is called with the
    mapping's entries as keyword arguments; a keyword that is not a field
    makes it raise [TypeError], and it tests nothing else. *)
Definition from_dict (d : gmap string value) : outcome :=
  match convert_containers (merge_defaults d) with
  | Conv (d, outside) =>
      if bool_decide (dom d ⊆ list_to_set field_names)
      then (if outside then OkOutside else Ok d)
      else Raises TypeError
  | Raise e => Raises e
  | Outside => OkOutside
  end.

(** Reading an entry at the type its field is annotated with. *)
Definition as_int (v : value) : option Z :=
  match v with VInt z => Some z | _ => None end.

Definition as_str (v : value) : option string :=
  match v with VStr s => Some s | _ => None end.

Definition as_flagval (v : value) : option flagval :=
  match v with
  | VBool b => Some (FBool b)
  | VStr s => Some (FStr s)
  | _ => None
  end.

Definition as_str_list (v : value) : option (list string) :=
  match v with VList l => mapM as_str l | _ => None end.

Definition as_flags (v : value) : option (gmap string flagval) :=
  match v with
  | VDict m =>
      if bool_decide (map_Forall (fun _ x => is_Some (as_flagval x)) m)
      then Some (omap as_flagval m) else None
  | _ => None
  end.

(** The attributes of a record read at the annotated types: the state that
    the engine works on.  [None] when an attribute has another type, which
    the constructor does not prevent; the engine is modelled on states of
    the annotated types only. *)
Definition as_story_state (attrs : gmap string value) : option StoryState :=
  name_ ← attrs !! "name" ≫= as_str;
  chapter_ ← attrs !! "chapter" ≫= as_int;
  location_ ← attrs !! "location" ≫= as_str;
  health_ ← attrs !! "health" ≫= as_int;
  power_ ← attrs !! "power" ≫= as_int;
  morality_ ← attrs !! "morality" ≫= as_int;
  notoriety_ ← attrs !! "notoriety" ≫= as_int;
  trust_ ← attrs !! "trust_demon_lord" ≫= as_int;
  bond_ ← attrs !! "bond_demon_lord" ≫= as_int;
  inventory_ ← attrs !! "inventory" ≫= as_str_list;
  flags_ ← attrs !! "flags" ≫= as_flags;
  history_ ← attrs !! "history" ≫= as_str_list;
  seed_ ← attrs !! "seed" ≫= as_int;
  Some (mkState name_ chapter_ location_ health_ power_ morality_ notoriety_
          trust_ bond_ inventory_ flags_ history_ seed_).

(** The state that a deserialization returns, when it returns a record of
    the annotated types. *)
Definition record_of (r : outcome) : option StoryState :=
  match r with
  | Ok attrs => as_story_state attrs
  | _ => None
  end.

(** What serializing again gives after a deserialization: [asdict] copies
    the attributes of the record. *)
Definition reserialize (r : outcome) : option (gmap string value) :=
  match r with
  | Ok attrs => Some attrs
  | _ => None
  end.




(** ** Saves: [SaveManager]

    The files under the save directory are a finite map from paths to
    contents.  A file holds the JSON value written to it ([json.dump]
    followed by [json.load] gives the value back) or text that [json.load]
    rejects.  Failures of the operating system (a missing directory, a
    refused write) and the interpreter's limit on the number of digits of a
    converted integer are not modelled. *)

Inductive file :=
  | FJson (v : value)
  | FGarbage.

Record SaveManager := mkSaveManager {
  save_dir : string;
  num_slots : Z
}.

(** [NUM_SLOTS] *)
Definition NUM_SLOTS : Z := 8.

(** [s.startswith("/")] and [s.endswith("/")] *)
Definition starts_with_slash (s : string) : bool :=
  match s with
  | String c _ => Ascii.eqb c "/"
  | EmptyString => false
  end.

Fixpoint ends_with_slash (s : string) : bool :=
  match s with
  | EmptyString => false
  | String c EmptyString => Ascii.eqb c "/"
  | String _ r => ends_with_slash r
  end.

(** [os.path.join(a, b)] on a POSIX system. *)
Definition path_join (a b : string) : string :=
  if starts_with_slash b then b
  else match a with
       | EmptyString => b
       | _ => if ends_with_slash a then a +:+ b else a +:+ "/" +:+ b
       end.

(** [slot_path]: the f-string formats the slot in decimal. *)
Definition slot_path (mgr : SaveManager) (slot : Z) : string :=
  path_join (save_dir mgr) ("slot_" +:+ pretty slot +:+ ".json").

Inductive save_result :=
  | Saved (fs : gmap string file) (path : string)
  | SaveRaises (e : exn).

(** [save]; [now] is [int(time.time())]. *)
Definition save (mgr : SaveManager) (now : Z) (fs : gmap string file)
    (slot : Z) (st : StoryState) : save_result :=
  if (slot <? 1)%Z || (slot >? num_slots mgr)%Z then SaveRaises ValueError
  else
    let path := slot_path mgr slot in
    let data : gmap string value :=
      <["state" := VDict (to_dict st)]>
        (<["timestamp" := VInt now]> (<["version" := VInt 1]> ∅)) in
    Saved (<[path := FJson (VDict data)]> fs) path.

(** [load]: a missing file raises [FileNotFoundError], text that is not
    JSON makes [json.load] raise, a top-level value without [get] or a state
    payload without [setdefault] raises [AttributeError], and the rest is
    [from_dict]. *)
Definition load (mgr : SaveManager) (fs : gmap string file) (slot : Z)
  : outcome :=
  let path := slot_path mgr slot in
  match fs !! path with
  | None => Raises FileNotFoundError
  | Some FGarbage => Raises JSONDecodeError
  | Some (FJson (VDict data)) =>
      match default (VDict ∅) (data !! "state") with
      | VDict d => from_dict d
      | _ => Raises AttributeError
      end
  | Some (FJson _) => Raises AttributeError
  end.

Section ListSaves.

(** [time.strftime(..., time.localtime(t))], [None] when it raises; and the
    current time, which [time.localtime(None)] falls back on. *)
Variable format_time : Z -> option string.
Variable now : Z.

(** The time stamp shown for a file: ["<unknown>"] unless the file decodes
    to a mapping whose time stamp can be formatted. *)
Definition save_stamp (f : file) : string :=
  match f with
  | FJson (VDict data) =>
      match default (VInt 0) (data !! "timestamp") with
      | VInt t => default "<unknown>" (format_time t)
      | VBool b => default "<unknown>" (format_time (Z.b2z b))
      | VNone => default "<unknown>" (format_time now)
      | _ => "<unknown>"
      end
  | _ => "<unknown>"
  end.

(** [list_saves]: the slots 1 to [num_slots] whose file exists, in order,
    each with its time stamp. *)
Definition list_saves (mgr : SaveManager) (fs : gmap string file)
  : list (Z * string) :=
  omap (fun s =>
          match fs !! slot_path mgr s with
          | Some f => Some (s, save_stamp f)
          | None => None
          end)
       (seqZ 1 (num_slots mgr)).

End ListSaves.

(** ** [game_loop]

    A line of input, as [parse_command], [str.isdigit] and [int] read it
    (the handling of the characters of the line is not modelled): a command,
    a number, a line on which [int] raises although [isdigit] accepted it (a
    superscript digit, say), or anything else. *)
Inductive line :=
  | LHelp
  | LStats
  | LSlots
  | LQuit
  | LSave (slot : option Z)
  | LLoad (slot : option Z)
  | LPick (idx : Z)
  | LBadNumber
  | LOther.

(** What the loop shows of the story: the header and the scene printed at
    the top of the outer loop (with the archetype drawn for it, [None] for
    the introduction), the narration that follows a choice, the ending. *)
Inductive event :=
  | EScene (chapter_ : Z) (location_ : string) (archetype : option string)
      (sc : Scene)
  | EFollow (text : string)
  | EEnding (text : string).

(** How a run of the loop ends: it returns, with what it has shown, the
    random source, the state and the files as they are then; an exception
    leaves it; or a record loaded from a save is not of the annotated types,
    where the model of the engine stops. *)
Inductive run (G : Type) :=
  | Returned (shown : list event) (g : G) (st : StoryState)
      (fs : gmap string file)
  | Escaped (shown : list event) (e : exn)
  | Untyped (shown : list event).
Arguments Returned {G} shown g st fs.
Arguments Escaped {G} shown e.
Arguments Untyped {G} shown.

(** Events shown before the rest of a run. *)
Definition after {G : Type} (evs : list event) (r : run G) : run G :=
  match r with
  | Returned shown g st fs => Returned (evs ++ shown)%list g st fs
  | Escaped shown e => Escaped (evs ++ shown)%list e
  | Untyped shown => Untyped (evs ++ shown)%list
  end.

(** What the top of the outer loop does. *)
Inductive scene_or_ending (G : Type) :=
  | AtEnding (text : string)
  | AtScene (g : G) (st : StoryState) (sc : Scene) (archetype : option string)
  | AtError (e : exn).
Arguments AtEnding {G} text.
Arguments AtScene {G} g st sc archetype.
Arguments AtError {G} e.

Section GameLoop.
Context {G : Type} `{RandomSource G}.

(** [SaveManager()], over the directory that [SAVE_DIR] names. *)
Variable saver : SaveManager.

(** [int(time.time())] when the [n]-th line of input is handled. *)
Variable clock : nat -> Z.

(** The top of the outer loop: the ending check, then the scene.  Every
    ending text is a non-empty string, so [if ending] tests for [None]; and
    [rng.choice] raises [IndexError] on an empty list, which the lists of
    the engine never are. *)
Definition scene_or_end (g : G) (st : StoryState) : scene_or_ending G :=
  match check_ending st with
  | Some ending => AtEnding ending
  | None =>
      match generate_scene_arch g st with
      | Some (g, st, sc, archetype) => AtScene g st sc archetype
      | None => AtError IndexError
      end
  end.

(** The inner loop, reading the lines left, with the choices of the scene
    on screen; after a valid pick, the outer loop comes round to the next
    scene and back into the inner loop.  Input that ends makes [prompt]
    return the quit command. *)
Fixpoint read_input (lines : list line) (n : nat) (g : G) (st : StoryState)
    (fs : gmap string file) (choices : list (string * string)) : run G :=
  match lines with
  | [] => Returned [] g st fs
  | l :: rest =>
      match l with
      | LHelp | LStats | LSlots | LOther | LSave None | LLoad None =>
          read_input rest (S n) g st fs choices
      | LQuit => Returned [] g st fs
      | LBadNumber => Escaped [] ValueError
      | LSave (Some slot) =>
          match save saver (clock n) fs slot st with
          | Saved fs _ => read_input rest (S n) g st fs choices
          | SaveRaises _ => read_input rest (S n) g st fs choices
          end
      | LLoad (Some slot) =>
          match load saver fs slot with
          | Ok attrs =>
              match as_story_state attrs with
              | Some st => read_input rest (S n) (rng_seed (seed st)) st fs choices
              | None => Untyped []
              end
          | OkOutside => Untyped []
          | Raises _ => read_input rest (S n) g st fs choices
          end
      | LPick idx =>
          if (1 <=? idx)%Z && (idx <=? Z.of_nat (length choices))%Z then
            match choices !! Z.to_nat (idx - 1) with
            | Some (_, tag) =>
                let '(st, follow) := apply_choice st tag in
                match drift g st with
                | Some (g, st) =>
                    after [EFollow follow]
                      match scene_or_end g st with
                      | AtEnding ending => Returned [EEnding ending] g st fs
                      | AtScene g st sc archetype =>
                          after [EScene (chapter st) (location st) archetype sc]
                            (read_input rest (S n) g st fs (snd sc))
                      | AtError e => Escaped [] e
                      end
                | None => Escaped [] IndexError
                end
            | None => Escaped [] IndexError
            end
          else read_input rest (S n) g st fs choices
      end
  end.

(** [game_loop(state)]: the source is seeded from the state's seed. *)
Definition game_loop (st : StoryState) (fs : gmap string file)
    (lines : list line) : run G :=
  let g := rng_seed (seed st) in
  match scene_or_end g st with
  | AtEnding ending => Returned [EEnding ending] g st fs
  | AtScene g st sc archetype =>
      after [EScene (chapter st) (location st) archetype sc]
        (read_input lines 0 g st fs (snd sc))
  | AtError e => Escaped [] e
  end.

End GameLoop.


(** No line makes the loop load a save, and [int] raises on none. *)
Definition plays_on (lines : list line) : bool :=
  forallb (fun l => match l with
                    | LLoad (Some _) | LBadNumber => false
                    | _ => true
                    end) lines.



(** The archetypes of the scenes shown, in order. *)
Definition archetypes (shown : list event) : list (option string) :=
  omap (fun e => match e with
                 | EScene _ _ archetype _ => Some archetype
                 | _ => None
                 end) shown.

(** ** [from_dict] on object identities

    Lists and dictionaries are objects: a value of container type is a
    reference into a store, and two references to the same location are the
    same container.  This is the level at which a container can be told
    fresh from aliased. *)

(** A Python value: an atom or a reference to a container. *)
Inductive hval :=
  | HNone
  | HInt (z : Z)
  | HBool (b : bool)
  | HStr (s : string)
  | HRef (l : positive).

(** A container in the store. *)
Inductive obj :=
  | OList (xs : list hval)
  | ODict (m : gmap string hval).









(** The store [h'] keeps every object of [h] other than the one at [ld]. *)
Definition grows (ld : positive) (h h' : gmap positive obj) : Prop :=
  forall l o, h !! l = Some o -> l <> ld -> h' !! l = Some o.


(** ** Bounds, reachable states, and the tables the specification is read
    against *)

(** The documented closed interval of each bounded attribute. *)
Definition in_bounds (st : StoryState) : Prop :=
  0 <= health st <= 100 /\
  0 <= power st <= 100 /\
  -100 <= morality st <= 100 /\
  0 <= notoriety st <= 100 /\
  0 <= trust_demon_lord st <= 100 /\
  0 <= bond_demon_lord st <= 100.

(** The bounded attributes, as one tuple. *)
Definition attrs (st : StoryState) : Z * Z * Z * Z * Z * Z :=
  (health st, power st, morality st, notoriety st,
   trust_demon_lord st, bond_demon_lord st).

Section Reachable.
Context {G : Type} `{RandomSource G}.

(** The states a playthrough can be in: a new game, then any interleaving
    of scene renders, applied choices (with any tag), incidental drifts,
    and saves followed by loads. *)
Inductive reachable : StoryState -> Prop :=
  | reach_new answer seed_ :
      reachable (new_game answer seed_)
  | reach_scene g st g' st' sc :
      reachable st ->
      generate_scene g st = Some (g', st', sc) ->
      reachable st'
  | reach_choice st tag :
      reachable st ->
      reachable (fst (apply_choice st tag))
  | reach_drift st d :
      reachable st ->
      d ∈ drift_steps ->
      reachable (nudge_health d st)
  | reach_load st st' :
      reachable st ->
      record_of (from_dict (to_dict st)) = Some st' ->
      reachable st'.

End Reachable.

(** The eligibility table of the specification, one row per condition, in
    the order of the table. *)
Definition eligibility_table (st : StoryState) : list (bool * list string) :=
  let met := flag_on "met_demon_lord" st in
  [(met && (trust_demon_lord st >=? 60)%Z && negb (flag_on "oath_bound" st),
    ["oath_bond"]);
   (met && (trust_demon_lord st >=? 30)%Z, ["council"; "training"]);
   (met && (trust_demon_lord st <? 30)%Z, ["tense_camp"]);
   (flag_on "vow_revenge" st, ["spy_report"; "ambush_king_scouts"]);
   ((morality st >=? 40)%Z, ["rescue_travelers"]);
   ((morality st <=? -40)%Z, ["grim_bargain"]);
   (true, ["mystic_ruins"; "wild_hunt"; "whispering_trees"])].

(** The union of the rows whose condition holds. *)
Definition table_union (rows : list (bool * list string)) : list string :=
  concat (map (fun row : bool * list string => if row.1 then row.2 else []) rows).

(** The ending conditions of [check_ending], in the order they are tested. *)
Definition death_condition (st : StoryState) : bool := (health st <=? 0)%Z.

Definition alliance_condition (st : StoryState) : bool :=
  (trust_demon_lord st >=? 80)%Z && (power st >=? 70)%Z && flag_on "oath_bound" st.

Definition sovereign_condition (st : StoryState) : bool :=
  (notoriety st >=? 80)%Z && (power st >=? 80)%Z && (morality st <=? -30)%Z.

Definition guardian_condition (st : StoryState) : bool :=
  (morality st >=? 80)%Z && (power st >=? 50)%Z.

Definition exile_condition (st : StoryState) : bool :=
  (chapter st >=? 30)%Z && (trust_demon_lord st <? 40)%Z && (notoriety st <? 40)%Z.

(** The priority list of the specification: (condition, ending) pairs. *)
Definition ending_rules (st : StoryState) : list (bool * string) :=
  [(death_condition st, ending_death);
   (alliance_condition st, ending_alliance (demon_lord st));
   (sovereign_condition st, ending_sovereign);
   (guardian_condition st, ending_guardian);
   (exile_condition st, ending_exile)].

(** First match wins. *)
Fixpoint first_match (rules : list (bool * string)) : option string :=
  match rules with
  | [] => None
  | (c, e) :: rest => if c then Some e else first_match rest
  end.

(** ** A concrete pseudo-random source

    A linear congruential generator that implements [RandomSource]; it
    stands in for [random.Random] wherever the engine is evaluated on a
    concrete input.  Every theorem below holds for any source. *)

Definition lcg_next (s : Z) : Z := (s * 1103515245 + 12345) mod 2147483648.

Definition lcg_randbelow (n : nat) (s : Z) : nat * Z :=
  (Z.to_nat ((lcg_next s / 65536) mod Z.of_nat n), lcg_next s).

Definition lcg_chance (pct : Z) (s : Z) : bool * Z :=
  (((lcg_next s / 65536) mod 100 <? pct)%Z, lcg_next s).

Lemma lcg_randbelow_lt (n : nat) (s : Z) :
  (0 < n)%nat -> (fst (lcg_randbelow n s) < n)%nat.
Proof.
  intros Hn. unfold lcg_randbelow. simpl.
  pose proof (Z.mod_pos_bound (lcg_next s / 65536) (Z.of_nat n)). lia.
Qed.

#[global] Instance lcg_source : RandomSource Z :=
  {| rng_seed := fun z => z mod 2147483648;
     rng_randbelow := lcg_randbelow;
     rng_chance := lcg_chance;
     rng_randbelow_lt := lcg_randbelow_lt |}.

(** ** Sample saves *)






(** ** Sample runs *)

(** A save manager over a relative directory. *)
Definition sample_saver : SaveManager := mkSaveManager "saves" NUM_SLOTS.




(** Two ways of typing the numbers 1, 9 and 2. *)
Definition chatty_run : list line :=
  [LHelp; LPick 1; LSave (Some 2); LPick 9; LPick 2; LQuit; LPick 1].




(** ** Further tables and intermediate states *)

(** The archetypes that [generate_scene] dispatches on by name. *)
Definition dispatched_archetypes : list string :=
  ["oath_bond"; "council"; "training"; "tense_camp"; "spy_report";
   "ambush_king_scouts"; "rescue_travelers"; "grim_bargain"; "mystic_ruins";
   "wild_hunt"; "whispering_trees"].

(** The line that [intro_scene] appends to the history. *)
Definition intro_history_line : string :=
  "Banished to the Demon Forest after betrayal by the kingdom and fellow heroes.".

(** The state that [intro_scene] has built when it looks up the name. *)
Definition intro_prepared (st : StoryState) : StoryState :=
  history_append intro_history_line
    (flag_setdefault "seeking_truth" (FBool true)
       (flag_setdefault "vow_revenge" (FBool false)
          (flag_setdefault "allied" (FBool false)
             (flag_setdefault "met_demon_lord" (FBool true)
                (flag_setdefault "betrayed" (FBool true)
                   (set_location "Demon Forest — Thornsfall Edge"
                      (set_chapter 1 st))))))).

(** The chapter numbers in the headers of the scenes shown, in order. *)
Definition scene_chapters (shown : list event) : list Z :=
  omap (fun e => match e with
                 | EScene chapter_ _ _ _ => Some chapter_
                 | _ => None
                 end) shown.

(** * Properties *)

(** ** [clamp] and the helpers of [apply_choice] *)

Lemma clamp_range (v lo hi : Z) : lo <= hi -> lo <= clamp v lo hi <= hi.
Proof. unfold clamp. lia. Qed.

Lemma clamp_id (v lo hi : Z) : lo <= v <= hi -> clamp v lo hi = v.
Proof. unfold clamp. lia. Qed.

(** Splits the comparison chain of [apply_choice]: one goal per branch. *)
Ltac split_tag_chain :=
  repeat match goal with
    | |- context [if String.eqb ?t ?k then _ else _] => destruct (String.eqb t k)
    end.

Lemma apply_choice_chapter (st : StoryState) (tag : string) :
  chapter (fst (apply_choice st tag)) = chapter st + 1.
Proof. unfold apply_choice. split_tag_chain; reflexivity. Qed.

Lemma apply_all_snoc (st : StoryState) (tags : list string) (tag : string) :
  apply_all st (tags ++ [tag]) = fst (apply_choice (apply_all st tags) tag).
Proof. unfold apply_all. by rewrite foldl_app. Qed.

Lemma apply_all_chapter (st : StoryState) (tags : list string) :
  chapter (apply_all st tags) = chapter st + Z.of_nat (length tags).
Proof.
  revert st. induction tags as [|tag rest IH]; intros st.
  - simpl. lia.
  - change (apply_all st (tag :: rest))
      with (apply_all (fst (apply_choice st tag)) rest).
    rewrite IH, apply_choice_chapter. simpl length. lia.
Qed.

(** C5: every applied choice, whatever its tag, adds exactly one to
    [chapter]; hence after any sequence of applied choices [chapter] has grown
    by the number of choices applied and has never decreased along the way. *)
Theorem chapter_counts_applied_choices :
  forall (st : StoryState) (tags : list string),
    (forall tag, chapter (fst (apply_choice st tag)) = chapter st + 1) /\
    chapter (apply_all st tags) = chapter st + Z.of_nat (length tags) /\
    (forall tag,
        chapter (apply_all st tags) <= chapter (apply_all st (tags ++ [tag]))).
Proof.
  intros st tags. repeat split.
  - intros tag. apply apply_choice_chapter.
  - apply apply_all_chapter.
  - intros tag. rewrite apply_all_snoc, apply_choice_chapter. lia.
Qed.

(** ** Unknown tags *)

Lemma unknown_tag_eqb (tag k : string) :
  tag ∉ known_tags -> k ∈ known_tags -> String.eqb tag k = false.
Proof.
  intros Hout Hin. apply String.eqb_neq. intros ->. contradiction.
Qed.

Lemma known_tag_elem (k : string) :
  bool_decide (k ∈ known_tags) = true -> k ∈ known_tags.
Proof. apply bool_decide_eq_true_1. Qed.

(** C4: a tag outside the effect table gets the fallback narration, and the
    state comes back as it was except that [chapter] is one higher: no
    attribute, flag, inventory entry or history line changes. *)
Theorem unknown_tag_is_noop :
  forall (st : StoryState) (tag : string),
    tag ∉ known_tags ->
    apply_choice st tag = (set_chapter (chapter st + 1) st, fallback_narration).
Proof.
  intros st tag Hout. unfold apply_choice.
  repeat match goal with
    | |- context [String.eqb tag ?k] =>
        rewrite (unknown_tag_eqb tag k Hout (known_tag_elem k eq_refl))
    end.
  reflexivity.
Qed.

Lemma unknown_tag_is_noop_witness :
  ("open_the_door" ∉ known_tags) /\
  apply_choice (new_game "Ann" 42) "open_the_door"
  = (set_chapter 1 (new_game "Ann" 42), fallback_narration).
Proof.
  assert (Hout : "open_the_door" ∉ known_tags).
  { apply (bool_decide_eq_false_1 ("open_the_door" ∈ known_tags)). reflexivity. }
  split; [exact Hout |].
  exact (unknown_tag_is_noop (new_game "Ann" 42) "open_the_door" Hout).
Defined.

(** ** Bounds are preserved by every operation *)

Lemma in_bounds_new_game (answer : string) (seed_ : Z) :
  in_bounds (new_game answer seed_).
Proof. unfold in_bounds. simpl. lia. Qed.

Lemma in_bounds_apply_choice (st : StoryState) (tag : string) :
  in_bounds st -> in_bounds (fst (apply_choice st tag)).
Proof.
  unfold in_bounds, apply_choice. intros Hb.
  split_tag_chain; simpl; unfold clamp; simpl; lia.
Qed.

Lemma in_bounds_nudge_health (st : StoryState) (d : Z) :
  in_bounds st -> in_bounds (nudge_health d st).
Proof. unfold in_bounds, nudge_health, clamp. simpl. lia. Qed.

(** ** Serialization round trip *)

Lemma mapM_as_str_VStr (l : list string) : mapM as_str (VStr <$> l) = Some l.
Proof.
  induction l as [|x l IH]; [reflexivity |].
  rewrite fmap_cons. cbn. rewrite IH. reflexivity.
Qed.

Lemma as_flagval_of_flagval (v : flagval) : as_flagval (of_flagval v) = Some v.
Proof. by destruct v. Qed.

Lemma as_flags_of_flags (m : gmap string flagval) :
  as_flags (VDict (of_flagval <$> m)) = Some m.
Proof.
  unfold as_flags. rewrite bool_decide_eq_true_2.
  - f_equal. apply map_eq. intros k.
    rewrite lookup_omap, lookup_fmap.
    destruct (m !! k) as [v|]; simpl; [apply as_flagval_of_flagval | reflexivity].
  - intros k x. rewrite lookup_fmap. intros Hx.
    destruct (m !! k) as [v|]; simplify_eq/=.
    rewrite as_flagval_of_flagval. eauto.
Qed.

Lemma dict_setdefault_union {V : Type} (k : string) (v : V) (d : gmap string V) :
  dict_setdefault k v d = d ∪ {[k := v]}.
Proof.
  unfold dict_setdefault. apply map_eq. intros j.
  destruct (d !! k) as [x|] eqn:Hk.
  - rewrite lookup_union. destruct (decide (k = j)) as [<-|Hne].
    + rewrite Hk, lookup_singleton_eq. reflexivity.
    + rewrite lookup_singleton_ne by done. by destruct (d !! j).
  - rewrite lookup_union. destruct (decide (k = j)) as [<-|Hne].
    + rewrite lookup_insert_eq, Hk, lookup_singleton_eq. reflexivity.
    + rewrite lookup_insert_ne, lookup_singleton_ne by done. by destruct (d !! j).
Qed.

Lemma setdefault_all_union {V : Type} (items : list (string * V)) (d : gmap string V) :
  foldl (fun d '(k, v) => dict_setdefault k v d) d items = d ∪ list_to_map items.
Proof.
  revert d. induction items as [|[k v] items IH]; intros d; simpl.
  - by rewrite (right_id_L ∅ (∪)).
  - rewrite IH, dict_setdefault_union, <- (assoc_L (∪)).
    by rewrite insert_union_singleton_l.
Qed.

Lemma merge_defaults_union (d : gmap string value) :
  merge_defaults d = d ∪ to_dict default_state.
Proof. apply setdefault_all_union. Qed.

(** One [d[k] = convert(d.get(k, empty))] step whose conversion returns. *)
Lemma reconvert_Conv (convert : value -> conv value) (k : string)
    (empty x v : value) (d : gmap string value) (outside : bool) :
  d !! k = Some x ->
  convert x = Conv v ->
  reconvert convert k empty (Conv (d, outside)) = Conv (<[k := v]> d, outside).
Proof. intros Hk Hc. unfold reconvert. by rewrite Hk; simpl; rewrite Hc. Qed.

Lemma record_lookups (v1 v2 v3 v4 v5 v6 v7 v8 v9 v10 v11 v12 v13 : value) :
  let d : gmap string value :=
    list_to_map
      [("name", v1); ("chapter", v2); ("location", v3); ("health", v4);
       ("power", v5); ("morality", v6); ("notoriety", v7);
       ("trust_demon_lord", v8); ("bond_demon_lord", v9); ("inventory", v10);
       ("flags", v11); ("history", v12); ("seed", v13)] in
  d !! "name" = Some v1 /\ d !! "chapter" = Some v2 /\ d !! "location" = Some v3 /\
  d !! "health" = Some v4 /\ d !! "power" = Some v5 /\ d !! "morality" = Some v6 /\
  d !! "notoriety" = Some v7 /\ d !! "trust_demon_lord" = Some v8 /\
  d !! "bond_demon_lord" = Some v9 /\ d !! "inventory" = Some v10 /\
  d !! "flags" = Some v11 /\ d !! "history" = Some v12 /\ d !! "seed" = Some v13.
Proof. vm_compute. repeat split. Qed.

Lemma to_dict_lookups (st : StoryState) :
  to_dict st !! "name" = Some (VStr (name st)) /\
  to_dict st !! "chapter" = Some (VInt (chapter st)) /\
  to_dict st !! "location" = Some (VStr (location st)) /\
  to_dict st !! "health" = Some (VInt (health st)) /\
  to_dict st !! "power" = Some (VInt (power st)) /\
  to_dict st !! "morality" = Some (VInt (morality st)) /\
  to_dict st !! "notoriety" = Some (VInt (notoriety st)) /\
  to_dict st !! "trust_demon_lord" = Some (VInt (trust_demon_lord st)) /\
  to_dict st !! "bond_demon_lord" = Some (VInt (bond_demon_lord st)) /\
  to_dict st !! "inventory" = Some (VList (VStr <$> inventory st)) /\
  to_dict st !! "flags" = Some (VDict (of_flagval <$> flags st)) /\
  to_dict st !! "history" = Some (VList (VStr <$> history st)) /\
  to_dict st !! "seed" = Some (VInt (seed st)).
Proof. apply record_lookups. Qed.

Lemma dom_to_dict (st : StoryState) : dom (to_dict st) = list_to_set field_names.
Proof. unfold to_dict. rewrite dom_list_to_map_L. reflexivity. Qed.

Lemma as_story_state_to_dict (st : StoryState) :
  as_story_state (to_dict st) = Some st.
Proof.
  unfold as_story_state.
  destruct (to_dict_lookups st)
    as (H1 & H2 & H3 & H4 & H5 & H6 & H7 & H8 & H9 & H10 & H11 & H12 & H13).
  rewrite H1, H2, H3, H4, H5, H6, H7, H8, H9, H10, H11, H12, H13.
  cbn [mbind option_bind as_str as_int as_str_list].
  rewrite !mapM_as_str_VStr, as_flags_of_flags. cbn. by destruct st.
Qed.

Lemma union_defaults_to_dict (st : StoryState) :
  to_dict st ∪ to_dict default_state = to_dict st.
Proof.
  apply map_eq. intros k. rewrite lookup_union.
  destruct (to_dict st !! k) as [v|] eqn:Hk.
  - by destruct (to_dict default_state !! k).
  - apply not_elem_of_dom in Hk. rewrite dom_to_dict, <- (dom_to_dict default_state) in Hk.
    apply not_elem_of_dom in Hk. by rewrite Hk.
Qed.

(** The three conversions leave a serialization as it is: its inventory
    and history are lists and its flags a dictionary. *)
Lemma convert_containers_to_dict (st : StoryState) :
  convert_containers (to_dict st) = Conv (to_dict st, false).
Proof.
  destruct (to_dict_lookups st)
    as (_ & _ & _ & _ & _ & _ & _ & _ & _ & Hi & Hf & Hh & _).
  unfold convert_containers.
  rewrite (reconvert_Conv to_list_value "inventory" _ _ _ _ _ Hi eq_refl).
  rewrite (insert_id _ _ _ Hi).
  rewrite (reconvert_Conv to_dict_value "flags" _ _ _ _ _ Hf eq_refl).
  rewrite (insert_id _ _ _ Hf).
  rewrite (reconvert_Conv to_list_value "history" _ _ _ _ _ Hh eq_refl).
  by rewrite (insert_id _ _ _ Hh).
Qed.

Lemma from_dict_to_dict (st : StoryState) : from_dict (to_dict st) = Ok (to_dict st).
Proof.
  unfold from_dict.
  rewrite merge_defaults_union, union_defaults_to_dict, convert_containers_to_dict.
  rewrite bool_decide_eq_true_2; [reflexivity |].
  by rewrite dom_to_dict.
Qed.

Lemma record_of_from_dict_to_dict (st : StoryState) :
  record_of (from_dict (to_dict st)) = Some st.
Proof. rewrite from_dict_to_dict. apply as_story_state_to_dict. Qed.

(** C8: deserializing the serialization of a state gives that state back
    (for every state, reachable or not): the record built has the
    serialized mapping as its attributes, which read at the annotated types
    are the state; so serializing, deserializing and serializing again gives
    the first serialization. *)
Theorem to_dict_from_dict_roundtrip :
  forall st : StoryState,
    from_dict (to_dict st) = Ok (to_dict st) /\
    record_of (from_dict (to_dict st)) = Some st /\
    reserialize (from_dict (to_dict st)) = Some (to_dict st).
Proof.
  intros st. split; [apply from_dict_to_dict |].
  split; [apply record_of_from_dict_to_dict |].
  by rewrite from_dict_to_dict.
Qed.

(** ** What the scene procedures leave alone *)

Lemma choice_total {G : Type} `{RandomSource G} {A : Type} (g : G) (l : list A) :
  l <> [] -> exists x g', choice g l = Some (x, g') /\ x ∈ l.
Proof.
  intros Hne. unfold choice. destruct l as [|a l]; [done |].
  pose proof (rng_randbelow_lt (length (a :: l)) g) as Hlt.
  destruct (rng_randbelow (length (a :: l)) g) as [i g'] eqn:Hdraw.
  simpl fst in Hlt.
  destruct (lookup_lt_is_Some_2 (a :: l) i) as [x Hx]; [apply Hlt; simpl; lia |].
  rewrite Hx. exists x, g'. split; [reflexivity |].
  by apply list_elem_of_lookup_2 in Hx.
Qed.

Lemma choice_elem {G : Type} `{RandomSource G} {A : Type} (g g' : G) (l : list A) (x : A) :
  choice g l = Some (x, g') -> x ∈ l.
Proof.
  unfold choice. destruct l as [|a l]; [done |].
  destruct (rng_randbelow (length (a :: l)) g) as [i g1].
  destruct ((a :: l) !! i) as [y|] eqn:Hy; [|done].
  intros [= <- <-]. by apply list_elem_of_lookup_2 in Hy.
Qed.

(** Each scene procedure only assigns [location]. *)
Lemma dispatch_frame (chosen : string) (st : StoryState) :
  fst (dispatch chosen st)
  = set_location (location (fst (dispatch chosen st))) st.
Proof.
  unfold dispatch.
  repeat match goal with
    | |- context [if String.eqb ?t ?k then _ else _] => destruct (String.eqb t k)
    end; reflexivity.
Qed.

Lemma eligible_archetypes_tail (st : StoryState) :
  exists front,
    eligible_archetypes st
    = (front ++ ["mystic_ruins"; "wild_hunt"; "whispering_trees"])%list.
Proof. unfold eligible_archetypes. eexists. reflexivity. Qed.

Lemma eligible_archetypes_nonempty (st : StoryState) : eligible_archetypes st <> [].
Proof.
  destruct (eligible_archetypes_tail st) as [front ->]. by destruct front.
Qed.

Lemma in_bounds_attrs (st st' : StoryState) :
  attrs st' = attrs st -> in_bounds st -> in_bounds st'.
Proof. unfold attrs, in_bounds. intros [= -> -> -> -> -> ->]. done. Qed.

Lemma attrs_flag_setdefault (k : string) (v : flagval) (st : StoryState) :
  attrs (flag_setdefault k v st) = attrs st.
Proof. unfold flag_setdefault. by destruct (flags st !! k). Qed.

Lemma attrs_flag_store (k : string) (v : flagval) (st : StoryState) :
  attrs (flag_store k v st) = attrs st.
Proof. reflexivity. Qed.

Lemma attrs_history_append (line : string) (st : StoryState) :
  attrs (history_append line st) = attrs st.
Proof. reflexivity. Qed.

Lemma attrs_set_location (l : string) (st : StoryState) :
  attrs (set_location l st) = attrs st.
Proof. reflexivity. Qed.

Lemma attrs_set_chapter (c : Z) (st : StoryState) :
  attrs (set_chapter c st) = attrs st.
Proof. reflexivity. Qed.

Create Rewrite HintDb story_attrs.
#[local] Hint Rewrite attrs_flag_setdefault attrs_flag_store attrs_history_append
  attrs_set_location attrs_set_chapter : story_attrs.

Section SceneFrame.
Context {G : Type} `{RandomSource G}.

Lemma intro_scene_attrs (g g' : G) (st st' : StoryState) (sc : Scene) :
  intro_scene g st = Some (g', st', sc) -> attrs st' = attrs st.
Proof.
  unfold intro_scene. intros Heq.
  repeat case_match; simplify_eq; by autorewrite with story_attrs.
Qed.

Lemma generate_scene_later (g : G) (st : StoryState) :
  chapter st <> 0 ->
  exists chosen g',
    choice g (eligible_archetypes st) = Some (chosen, g') /\
    chosen ∈ eligible_archetypes st /\
    generate_scene_arch g st
    = Some (g', fst (dispatch chosen st), snd (dispatch chosen st), Some chosen).
Proof.
  intros Hch.
  destruct (choice_total g (eligible_archetypes st)
              (eligible_archetypes_nonempty st)) as (chosen & g' & Hc & Hin).
  exists chosen, g'. repeat split; [exact Hc | exact Hin |].
  unfold generate_scene_arch.
  destruct (Z.eqb_spec (chapter st) 0) as [|_]; [done |].
  rewrite Hc. by destruct (dispatch chosen st).
Qed.

Lemma generate_scene_attrs (g g' : G) (st st' : StoryState) (sc : Scene) :
  generate_scene g st = Some (g', st', sc) -> attrs st' = attrs st.
Proof.
  unfold generate_scene. intros Heq.
  destruct (Z.eq_dec (chapter st) 0) as [Hz|Hnz].
  - unfold generate_scene_arch in Heq.
    rewrite (proj2 (Z.eqb_eq _ _) Hz) in Heq.
    destruct (intro_scene g st) as [[[g1 st1] sc1]|] eqn:Hi; simplify_eq/=.
    by eapply intro_scene_attrs.
  - destruct (generate_scene_later g st Hnz) as (chosen & g1 & _ & _ & Hgen).
    rewrite Hgen in Heq. simplify_eq/=.
    by rewrite dispatch_frame.
Qed.

(** Every reachable state has its attributes within bounds. *)
Lemma reachable_in_bounds (st : StoryState) : reachable st -> in_bounds st.
Proof.
  induction 1 as [answer seed_ | g st g' st' sc _ IH Hgen | st tag _ IH
                 | st d _ IH _ | st st' _ IH Hload].
  - apply in_bounds_new_game.
  - eapply in_bounds_attrs; [by eapply generate_scene_attrs | exact IH].
  - by apply in_bounds_apply_choice.
  - by apply in_bounds_nudge_health.
  - rewrite record_of_from_dict_to_dict in Hload. by simplify_eq.
Qed.

Lemma apply_trace_in_bounds (st : StoryState) (tags : list string) :
  in_bounds st -> Forall in_bounds (apply_trace st tags).
Proof.
  revert st. induction tags as [|tag rest IH]; intros st Hb; simpl.
  - constructor.
  - constructor; [by apply in_bounds_apply_choice |].
    apply IH. by apply in_bounds_apply_choice.
Qed.

(** C1: from any reachable state, after each of any sequence of applied
    choices (known tags or not) health, power, notoriety, trust and bond
    lie in [0,100] and morality in [-100,100]. *)
Theorem bounded_attributes_stay_in_range :
  forall (st : StoryState) (tags : list string),
    reachable st ->
    Forall in_bounds (apply_trace st tags).
Proof.
  intros st tags Hreach.
  apply apply_trace_in_bounds. by apply reachable_in_bounds.
Qed.

End SceneFrame.

Lemma bounded_attributes_stay_in_range_witness :
  reachable (G := Z) (fst (apply_choice (new_game "Ann" 42) "intro_fight")) /\
  Forall in_bounds
    (apply_trace (fst (apply_choice (new_game "Ann" 42) "intro_fight"))
       ["hunt_duel"; "open_the_door"; "rescue_shield"]).
Proof.
  assert (Hreach : reachable (G := Z)
                     (fst (apply_choice (new_game "Ann" 42) "intro_fight"))).
  { apply reach_choice. apply reach_new. }
  split; [exact Hreach |].
  exact (bounded_attributes_stay_in_range (G := Z) _ _ Hreach).
Defined.

(** ** Scene rendering after the introduction *)

(** C10: from chapter 1 on, rendering a scene returns a scene and changes
    nothing in the state but [location]: name, chapter, the six bounded
    attributes, inventory, flags, history and seed are as before. *)
Theorem later_scene_only_sets_location :
  forall {G : Type} `{RandomSource G} (g : G) (st : StoryState),
    1 <= chapter st ->
    exists g' st' sc,
      generate_scene g st = Some (g', st', sc) /\
      st' = set_location (location st') st /\
      name st' = name st /\ chapter st' = chapter st /\
      health st' = health st /\ power st' = power st /\
      morality st' = morality st /\ notoriety st' = notoriety st /\
      trust_demon_lord st' = trust_demon_lord st /\
      bond_demon_lord st' = bond_demon_lord st /\
      inventory st' = inventory st /\ flags st' = flags st /\
      history st' = history st /\ seed st' = seed st.
Proof.
  intros G HG g st Hch.
  destruct (generate_scene_later g st) as (chosen & g' & _ & _ & Hgen); [lia |].
  exists g', (fst (dispatch chosen st)), (snd (dispatch chosen st)).
  split; [unfold generate_scene; by rewrite Hgen |].
  split; [apply dispatch_frame |].
  rewrite (dispatch_frame chosen st). by repeat split.
Qed.

Lemma later_scene_only_sets_location_witness :
  1 <= chapter (set_chapter 3 (new_game "Ann" 42)) /\
  exists g' st' sc,
    generate_scene (rng_seed 42 : Z) (set_chapter 3 (new_game "Ann" 42))
    = Some (g', st', sc) /\
    st' = set_location (location st') (set_chapter 3 (new_game "Ann" 42)).
Proof.
  assert (Hch : 1 <= chapter (set_chapter 3 (new_game "Ann" 42))) by (simpl; lia).
  split; [exact Hch |].
  destruct (later_scene_only_sets_location (rng_seed 42 : Z)
              (set_chapter 3 (new_game "Ann" 42)) Hch)
    as (g' & st' & sc & Hgen & Hframe & _).
  exists g', st', sc. split; [exact Hgen | exact Hframe].
Defined.

(** ** Eligible archetypes *)

(** Membership of a literal in a literal list, decided by evaluation. *)
Ltac elem_by_compute :=
  match goal with
  | |- ?x ∈ ?l => apply (bool_decide_eq_true_1 (x ∈ l)); vm_compute; reflexivity
  | |- ?x ∉ ?l => apply (bool_decide_eq_false_1 (x ∈ l)); vm_compute; reflexivity
  end.

Lemma ltb_negb_geb (a b : Z) : (a <? b)%Z = negb (a >=? b)%Z.
Proof. rewrite Z.geb_leb. destruct (Z.ltb_spec a b), (Z.leb_spec b a); simpl; lia. Qed.

Lemma eligible_archetypes_table (st : StoryState) :
  eligible_archetypes st = table_union (eligibility_table st).
Proof.
  unfold eligible_archetypes, table_union, eligibility_table.
  rewrite ltb_negb_geb.
  destruct (flag_on "met_demon_lord" st), (trust_demon_lord st >=? 60)%Z,
    (flag_on "oath_bound" st), (trust_demon_lord st >=? 30)%Z,
    (flag_on "vow_revenge" st), (morality st >=? 40)%Z, (morality st <=? -40)%Z;
    reflexivity.
Qed.

Lemma eligible_archetypes_exploration (st : StoryState) (a : string) :
  a ∈ ["mystic_ruins"; "wild_hunt"; "whispering_trees"] ->
  a ∈ eligible_archetypes st.
Proof.
  intros Ha. destruct (eligible_archetypes_tail st) as [front ->].
  apply elem_of_app. by right.
Qed.

Lemma eligible_archetypes_low_trust (st : StoryState) :
  flag_on "met_demon_lord" st = true ->
  trust_demon_lord st = 10 ->
  ("tense_camp" ∈ eligible_archetypes st) /\
  ("council" ∉ eligible_archetypes st) /\
  ("training" ∉ eligible_archetypes st).
Proof.
  intros Hmet Htrust. unfold eligible_archetypes. rewrite Hmet, Htrust.
  change (10 >=? 60)%Z with false. change (10 >=? 30)%Z with false.
  cbn [andb].
  destruct (flag_on "vow_revenge" st), (morality st >=? 40)%Z,
    (morality st <=? -40)%Z; cbn [app];
    (split; [| split]); elem_by_compute.
Qed.

(** C6: from chapter 1 on, the archetype a render draws comes from the
    candidate list, which is the union of the rows of the eligibility table
    whose condition holds; the three exploration archetypes are always in
    it, so it is never empty; with [met_demon_lord] set and trust at 10 it
    holds [tense_camp] and neither [council] nor [training]. *)
Theorem candidate_archetypes_follow_table :
  forall {G : Type} `{RandomSource G} (g : G) (st : StoryState),
    1 <= chapter st ->
    (exists chosen g',
        choice g (eligible_archetypes st) = Some (chosen, g') /\
        chosen ∈ eligible_archetypes st /\
        generate_scene_arch g st
        = Some (g', fst (dispatch chosen st), snd (dispatch chosen st), Some chosen)) /\
    eligible_archetypes st = table_union (eligibility_table st) /\
    ("mystic_ruins" ∈ eligible_archetypes st) /\
    ("wild_hunt" ∈ eligible_archetypes st) /\
    ("whispering_trees" ∈ eligible_archetypes st) /\
    eligible_archetypes st <> [] /\
    (flag_on "met_demon_lord" st = true ->
     trust_demon_lord st = 10 ->
     ("tense_camp" ∈ eligible_archetypes st) /\
     ("council" ∉ eligible_archetypes st) /\
     ("training" ∉ eligible_archetypes st)).
Proof.
  intros G HG g st Hch.
  split; [apply generate_scene_later; lia |].
  split; [apply eligible_archetypes_table |].
  repeat split;
    try (apply eligible_archetypes_exploration; elem_by_compute).
  - apply eligible_archetypes_nonempty.
  - by apply eligible_archetypes_low_trust.
  - by apply eligible_archetypes_low_trust.
  - by apply eligible_archetypes_low_trust.
Qed.

Lemma candidate_archetypes_follow_table_witness :
  1 <= chapter (set_chapter 2 (new_game "Ann" 42)) /\
  flag_on "met_demon_lord" (set_chapter 2 (new_game "Ann" 42)) = true /\
  trust_demon_lord (set_chapter 2 (new_game "Ann" 42)) = 10 /\
  eligible_archetypes (set_chapter 2 (new_game "Ann" 42))
  = ["tense_camp"; "mystic_ruins"; "wild_hunt"; "whispering_trees"] /\
  ("tense_camp" ∈ eligible_archetypes (set_chapter 2 (new_game "Ann" 42))) /\
  ("council" ∉ eligible_archetypes (set_chapter 2 (new_game "Ann" 42))) /\
  ("training" ∉ eligible_archetypes (set_chapter 2 (new_game "Ann" 42))).
Proof.
  assert (Hch : 1 <= chapter (set_chapter 2 (new_game "Ann" 42))) by (simpl; lia).
  assert (Hmet : flag_on "met_demon_lord" (set_chapter 2 (new_game "Ann" 42)) = true)
    by reflexivity.
  assert (Htrust : trust_demon_lord (set_chapter 2 (new_game "Ann" 42)) = 10)
    by reflexivity.
  destruct (candidate_archetypes_follow_table (rng_seed 42 : Z)
              (set_chapter 2 (new_game "Ann" 42)) Hch)
    as (_ & _ & _ & _ & _ & _ & Hlow).
  split; [exact Hch |]. split; [exact Hmet |]. split; [exact Htrust |].
  split; [reflexivity |]. exact (Hlow Hmet Htrust).
Defined.

(** ** Endings *)

Lemma check_ending_first_match (st : StoryState) :
  check_ending st = first_match (ending_rules st).
Proof. reflexivity. Qed.

(** C3: [check_ending] tests its five conditions in the fixed order death,
    alliance, sovereign, guardian, exile and returns the ending of the
    first that holds: a state meeting both the death and the alliance
    condition gets the death ending, and a state meeting none of the five
    gets no ending. *)
Theorem check_ending_priority :
  (forall st : StoryState,
      health st <= 0 ->
      trust_demon_lord st >= 80 -> power st >= 70 ->
      flag_on "oath_bound" st = true ->
      check_ending st = Some ending_death) /\
  (forall st : StoryState,
      ~ health st <= 0 ->
      ~ (trust_demon_lord st >= 80 /\ power st >= 70 /\
         flag_on "oath_bound" st = true) ->
      ~ (notoriety st >= 80 /\ power st >= 80 /\ morality st <= -30) ->
      ~ (morality st >= 80 /\ power st >= 50) ->
      ~ (chapter st >= 30 /\ trust_demon_lord st < 40 /\ notoriety st < 40) ->
      check_ending st = None) /\
  (forall st : StoryState, check_ending st = first_match (ending_rules st)).
Proof.
  split; [| split].
  - intros st Hh _ _ _. unfold check_ending.
    by rewrite (proj2 (Z.leb_le _ _) Hh).
  - intros st Hdeath Hally Hsov Hguard Hexile. unfold check_ending.
    rewrite !Z.geb_leb.
    destruct (Z.leb_spec (health st) 0); [lia |].
    destruct (Z.leb_spec 80 (trust_demon_lord st)), (Z.leb_spec 70 (power st)),
      (flag_on "oath_bound" st) eqn:Hoath; cbn [andb];
      try (exfalso; apply Hally; repeat split; [lia | lia | done]);
      destruct (Z.leb_spec 80 (notoriety st)), (Z.leb_spec 80 (power st)),
        (Z.leb_spec (morality st) (-30)); cbn [andb];
      try (exfalso; apply Hsov; lia);
      destruct (Z.leb_spec 80 (morality st)), (Z.leb_spec 50 (power st));
      cbn [andb];
      try (exfalso; apply Hguard; lia);
      destruct (Z.leb_spec 30 (chapter st)), (Z.ltb_spec (trust_demon_lord st) 40),
        (Z.ltb_spec (notoriety st) 40); cbn [andb];
      try (exfalso; apply Hexile; lia);
      reflexivity.
  - apply check_ending_first_match.
Qed.

Lemma check_ending_priority_witness :
  check_ending
    (set_health 0
       (set_power 80
          (set_trust_demon_lord 90
             (flag_store "oath_bound" (FBool true) default_state))))
  = Some ending_death /\
  check_ending default_state = None.
Proof.
  destruct check_ending_priority as (Hdeath & Hnone & _).
  split.
  - apply Hdeath; [simpl; lia | simpl; lia | simpl; lia | reflexivity].
  - apply Hnone; simpl; lia.
Defined.

(** ** The introductory scene and the pact *)

Lemma demon_names_nonempty : demon_names <> [].
Proof. done. Qed.

Lemma intro_then_pact {G : Type} `{RandomSource G} (g : G) :
  exists g' st' sc,
    generate_scene g (set_seed 42 default_state) = Some (g', st', sc) /\
    location st' = "Demon Forest — Thornsfall Edge" /\
    chapter st' = 1 /\
    map snd (snd sc) = ["intro_plead"; "intro_vengeance"; "intro_pact"; "intro_fight"] /\
    trust_demon_lord (fst (apply_choice st' "intro_pact")) = 30 /\
    flags (fst (apply_choice st' "intro_pact")) !! "allied" = Some (FBool true) /\
    chapter (fst (apply_choice st' "intro_pact")) = 2.
Proof.
  destruct (choice_total g demon_names demon_names_nonempty) as (n & g' & Hc & _).
  eexists g', _, _. split.
  - unfold generate_scene, generate_scene_arch.
    change (chapter (set_seed 42 default_state) =? 0)%Z with true.
    unfold intro_scene.
    lazymatch goal with
    | |- context [flags ?s !! "demon_lord_name"] =>
        replace (flags s !! "demon_lord_name") with (@None flagval)
          by (vm_compute; reflexivity)
    end.
    rewrite Hc. reflexivity.
  - repeat split; vm_compute; reflexivity.
Qed.

(** C2, as amended: from a default state with seed 42 at chapter 0, the
    render returns the introductory scene with its four choices and leaves
    the state at chapter 1; applying [intro_pact] then gives trust 30, the
    flag [allied] set, and chapter 2.  (Applied to the chapter-0 state
    without a render in between, the same tag gives chapter 1.) *)
Theorem intro_scene_then_pact :
  forall {G : Type} `{RandomSource G},
    exists g' st' sc,
      generate_scene (rng_seed 42) (set_seed 42 default_state) = Some (g', st', sc) /\
      location st' = "Demon Forest — Thornsfall Edge" /\
      chapter st' = 1 /\
      map snd (snd sc) = ["intro_plead"; "intro_vengeance"; "intro_pact"; "intro_fight"] /\
      length (snd sc) = 4%nat /\
      trust_demon_lord (fst (apply_choice st' "intro_pact")) = 30 /\
      flags (fst (apply_choice st' "intro_pact")) !! "allied" = Some (FBool true) /\
      chapter (fst (apply_choice st' "intro_pact")) = 2 /\
      chapter (fst (apply_choice (set_seed 42 default_state) "intro_pact")) = 1.
Proof.
  intros G HG.
  destruct (intro_then_pact (rng_seed 42))
    as (g' & st' & sc & Hgen & Hloc & Hch & Htags & Htrust & Hallied & Hch2).
  exists g', st', sc. repeat split; try done.
  by rewrite <- (length_map snd), Htags.
Qed.

(** The claim as first stated ends with chapter 1; the render has already
    moved the state to chapter 1, so the applied choice leaves it at 2. *)
Lemma intro_scene_then_pact_chapter_counterexample :
  ~ (exists g' st' sc,
        generate_scene (rng_seed 42 : Z) (set_seed 42 default_state)
        = Some (g', st', sc) /\
        length (snd sc) = 4%nat /\
        trust_demon_lord (fst (apply_choice st' "intro_pact")) = 30 /\
        flags (fst (apply_choice st' "intro_pact")) !! "allied" = Some (FBool true) /\
        chapter (fst (apply_choice st' "intro_pact")) = 1).
Proof.
  intros (g' & st' & sc & Hgen & _ & _ & _ & Hch).
  destruct (intro_then_pact (rng_seed 42 : Z))
    as (g2 & st2 & sc2 & Hgen2 & _ & _ & _ & _ & _ & Hch2).
  rewrite Hgen2 in Hgen. injection Hgen as <- <- <-. lia.
Qed.

(** ** Determinism of the game loop *)



Section Determinism.
Context {G : Type} `{RandomSource G}.

Lemma intro_scene_total (g : G) (st : StoryState) :
  exists r, intro_scene g st = Some r.
Proof.
  destruct (choice_total g demon_names demon_names_nonempty) as (n & g' & Hc & _).
  unfold intro_scene. rewrite Hc.
  repeat case_match; simplify_eq; eauto.
Qed.

Lemma generate_scene_arch_total (g : G) (st : StoryState) :
  exists r, generate_scene_arch g st = Some r.
Proof.
  destruct (Z.eq_dec (chapter st) 0) as [Hz|Hnz].
  - unfold generate_scene_arch. rewrite (proj2 (Z.eqb_eq _ _) Hz).
    destruct (intro_scene_total g st) as [r ->]. eauto.
  - destruct (generate_scene_later g st Hnz) as (chosen & g' & _ & _ & ->). eauto.
Qed.

Lemma drift_total (g : G) (st : StoryState) : exists r, drift g st = Some r.
Proof.
  unfold drift. destruct (_p 15 g) as [hit g1].
  destruct hit; [| eauto].
  destruct (choice_total g1 drift_steps) as (d & g2 & -> & _); [done | eauto].
Qed.


(** A listed choice number selects a choice. *)
Lemma listed_choice (choices : list (string * string)) (idx : Z) :
  (1 <=? idx)%Z && (idx <=? Z.of_nat (length choices))%Z = true ->
  exists text tag, choices !! Z.to_nat (idx - 1) = Some (text, tag).
Proof.
  intros Hr. apply andb_true_iff in Hr as [Hlo Hhi].
  apply Z.leb_le in Hlo, Hhi.
  destruct (lookup_lt_is_Some_2 choices (Z.to_nat (idx - 1))) as [[text tag] Hl];
    [lia | eauto].
Qed.






End Determinism.



(** ** Deserialization of an arbitrary mapping *)


(** Splits [k ∈ [k1; ...; kn]] into the cases [k = ki]. *)
Ltac elem_cases Hk :=
  repeat (apply elem_of_cons in Hk; destruct Hk as [->|Hk]);
  [.. | by apply elem_of_nil in Hk].













(** ** [from_dict] on objects: fresh containers *)

Lemma grows_refl (ld : positive) (h : gmap positive obj) : grows ld h h.
Proof. by intros l o Hl _. Qed.















(** * Further properties of the engine *)

(** ** [clamp] *)

(** X1: [clamp] saturates: its result is never below [lo], never above [hi]
    when the interval is not empty, equal to [v] inside the interval, and
    equal to [lo] when the bounds are crossed; it is monotone and
    idempotent. *)
Theorem clamp_saturates :
  forall v v' lo hi : Z,
    lo <= clamp v lo hi /\
    (lo <= hi -> clamp v lo hi <= hi) /\
    (lo <= v <= hi -> clamp v lo hi = v) /\
    (hi < lo -> clamp v lo hi = lo) /\
    (v <= v' -> clamp v lo hi <= clamp v' lo hi) /\
    clamp (clamp v lo hi) lo hi = clamp v lo hi.
Proof. intros v v' lo hi. unfold clamp. repeat split; lia. Qed.

Lemma clamp_saturates_witness :
  clamp 120 0 100 <= 100 /\ clamp 42 0 100 = 42 /\ clamp 5 10 0 = 10 /\
  clamp (-7) 0 100 <= clamp 3 0 100.
Proof.
  destruct (clamp_saturates 120 120 0 100) as (_ & Hhi & _).
  destruct (clamp_saturates 42 42 0 100) as (_ & _ & Hid & _).
  destruct (clamp_saturates 5 5 10 0) as (_ & _ & _ & Hcross & _).
  destruct (clamp_saturates (-7) 3 0 100) as (_ & _ & _ & _ & Hmono & _).
  split; [apply Hhi; lia |]. split; [apply Hid; lia |].
  split; [apply Hcross; lia | apply Hmono; lia].
Defined.

(** ** What [apply_choice] leaves alone *)

Lemma apply_choice_identity (st : StoryState) (tag : string) :
  name (fst (apply_choice st tag)) = name st /\
  seed (fst (apply_choice st tag)) = seed st /\
  location (fst (apply_choice st tag)) = location st /\
  flags (fst (apply_choice st tag)) !! "demon_lord_name"
  = flags st !! "demon_lord_name" /\
  demon_lord (fst (apply_choice st tag)) = demon_lord st.
Proof.
  unfold demon_lord, apply_choice.
  split_tag_chain; cbn; rewrite ?lookup_insert_ne by done; done.
Qed.

(** X2: applying a choice never changes the player's name, the seed, the
    location or the demon lord's name. *)
Theorem apply_choice_keeps_identity :
  forall (st : StoryState) (tag : string),
    name (fst (apply_choice st tag)) = name st /\
    seed (fst (apply_choice st tag)) = seed st /\
    location (fst (apply_choice st tag)) = location st /\
    flags (fst (apply_choice st tag)) !! "demon_lord_name"
    = flags st !! "demon_lord_name" /\
    demon_lord (fst (apply_choice st tag)) = demon_lord st.
Proof. exact apply_choice_identity. Qed.

(** ** Containers only grow *)

Lemma fromkeys_from_elem (seen l : list string) (x : string) :
  x ∈ fromkeys_from seen l <-> x ∈ l /\ x ∉ seen.
Proof.
  revert seen. induction l as [|y l IH]; intros seen; simpl.
  - split; [by intros ?%elem_of_nil | by intros [?%elem_of_nil _]].
  - case_bool_decide as Hy.
    + rewrite IH, elem_of_cons. split; [by intros [? ?]; auto |].
      intros [[->|Hl] Hout]; [done | by auto].
    + rewrite !elem_of_cons, IH, elem_of_cons. split.
      * intros [->|[Hl Hout]]; [split; [by left | done] |].
        split; [by right |]. intros Hs. apply Hout. by right.
      * intros [[->|Hl] Hout]; [by left |].
        destruct (decide (x = y)) as [->|Hne]; [by left |].
        right. split; [done |]. by intros [?|?].
Qed.

Lemma fromkeys_from_NoDup (seen l : list string) : NoDup (fromkeys_from seen l).
Proof.
  revert seen. induction l as [|y l IH]; intros seen; simpl.
  - constructor.
  - case_bool_decide as Hy; [apply IH |].
    constructor; [| apply IH].
    rewrite fromkeys_from_elem. intros [_ Hout]. apply Hout. by left.
Qed.

Lemma dict_fromkeys_elem (l : list string) (x : string) :
  x ∈ dict_fromkeys l <-> x ∈ l.
Proof.
  unfold dict_fromkeys. rewrite fromkeys_from_elem. split; [by intros [? _] |].
  intros Hx. split; [done | by intros ?%elem_of_nil].
Qed.

Lemma dict_fromkeys_NoDup (l : list string) : NoDup (dict_fromkeys l).
Proof. apply fromkeys_from_NoDup. Qed.

Lemma fromkeys_from_id (seen l : list string) :
  NoDup l -> (forall x, x ∈ l -> x ∉ seen) -> fromkeys_from seen l = l.
Proof.
  revert seen. induction l as [|y l IH]; intros seen Hnd Hdisj; simpl; [done |].
  apply NoDup_cons in Hnd as [Hy Hnd].
  rewrite bool_decide_eq_false_2 by (apply Hdisj; by left).
  f_equal. apply IH; [done |].
  intros x Hx [->|Hs]%elem_of_cons; [done |].
  by apply (Hdisj x); [right |].
Qed.

Lemma fromkeys_from_snoc_seen (seen l : list string) (x : string) :
  x ∈ seen \/ x ∈ l ->
  fromkeys_from seen (l ++ [x]) = fromkeys_from seen l.
Proof.
  revert seen. induction l as [|y l IH]; intros seen Hx; simpl.
  - destruct Hx as [Hx|Hx%elem_of_nil]; [| done].
    by rewrite bool_decide_eq_true_2.
  - case_bool_decide as Hy.
    + apply IH. destruct Hx as [Hx|[->|Hx]%elem_of_cons]; auto.
    + f_equal. apply IH.
      destruct Hx as [Hx|[->|Hx]%elem_of_cons]; [left; by right | left; by left | by right].
Qed.

Lemma fromkeys_from_snoc_new (seen l : list string) (x : string) :
  x ∉ seen -> x ∉ l ->
  fromkeys_from seen (l ++ [x]) = (fromkeys_from seen l ++ [x])%list.
Proof.
  revert seen. induction l as [|y l IH]; intros seen Hs Hl; simpl.
  - by rewrite bool_decide_eq_false_2.
  - apply not_elem_of_cons in Hl as [Hne Hl].
    case_bool_decide as Hy; [by apply IH |].
    simpl. f_equal. apply IH; [| done].
    by intros [?|?]%elem_of_cons.
Qed.

Lemma apply_choice_grows (st : StoryState) (tag : string) :
  dom (flags st) ⊆ dom (flags (fst (apply_choice st tag))) /\
  history st `prefix_of` history (fst (apply_choice st tag)) /\
  (forall x, x ∈ inventory st -> x ∈ inventory (fst (apply_choice st tag))).
Proof.
  unfold apply_choice.
  split_tag_chain; cbn;
    (split; [rewrite ?dom_insert_L; set_solver |
      split; [first [reflexivity | by apply prefix_app_r] |]]);
    try done.
  intros x Hx. apply dict_fromkeys_elem, elem_of_app. by left.
Qed.

(** X3: applying a choice never removes a flag, never drops or rewrites a
    history line (the old history is a prefix of the new one), and never
    loses an inventory item. *)
Theorem apply_choice_containers_grow :
  forall (st : StoryState) (tag : string),
    dom (flags st) ⊆ dom (flags (fst (apply_choice st tag))) /\
    history st `prefix_of` history (fst (apply_choice st tag)) /\
    (forall x, x ∈ inventory st -> x ∈ inventory (fst (apply_choice st tag))).
Proof. exact apply_choice_grows. Qed.


(** ** The vault relic *)

(** X4: forcing the vault puts the relic in the inventory exactly once: on
    an inventory without duplicates the relic is appended at the end if it
    was missing and nothing changes if it was there; whatever the inventory,
    the result has no duplicates and a second forcing changes nothing
    more. *)
Theorem ruins_force_adds_relic_once :
  forall st : StoryState,
    let st1 := fst (apply_choice st "ruins_force") in
    ("Vault Relic" ∈ inventory st1) /\
    NoDup (inventory st1) /\
    inventory (fst (apply_choice st1 "ruins_force")) = inventory st1 /\
    (NoDup (inventory st) ->
     inventory st1
     = if bool_decide ("Vault Relic" ∈ inventory st) then inventory st
       else (inventory st ++ ["Vault Relic"])%list).
Proof.
  intros st.
  assert (Hinv : forall s, inventory (fst (apply_choice s "ruins_force"))
                           = dict_fromkeys (inventory s ++ ["Vault Relic"]))
    by reflexivity.
  cbn zeta. rewrite !Hinv.
  assert (Hin : "Vault Relic" ∈ dict_fromkeys (inventory st ++ ["Vault Relic"])).
  { apply dict_fromkeys_elem, elem_of_app. right. by apply list_elem_of_singleton. }
  split; [exact Hin |]. split; [apply dict_fromkeys_NoDup |]. split.
  - unfold dict_fromkeys at 1. rewrite fromkeys_from_snoc_seen by (by right).
    apply fromkeys_from_id; [apply dict_fromkeys_NoDup |].
    by intros x _ ?%elem_of_nil.
  - intros Hnd. unfold dict_fromkeys. case_bool_decide as Hrelic.
    + rewrite fromkeys_from_snoc_seen by (by right).
      apply fromkeys_from_id; [done | by intros x _ ?%elem_of_nil].
    + rewrite fromkeys_from_snoc_new; [| by intros ?%elem_of_nil | done].
      f_equal. apply fromkeys_from_id; [done | by intros x _ ?%elem_of_nil].
Qed.

Lemma ruins_force_adds_relic_once_witness :
  NoDup (inventory (new_game "Ann" 42)) /\
  inventory (fst (apply_choice (new_game "Ann" 42) "ruins_force"))
  = ["Torn Cloak"; "Rusty Sword"; "Vault Relic"].
Proof.
  assert (Hnd : NoDup (inventory (new_game "Ann" 42))).
  { apply (bool_decide_eq_true_1 (NoDup (inventory (new_game "Ann" 42)))).
    vm_compute. reflexivity. }
  split; [exact Hnd |].
  destruct (ruins_force_adds_relic_once (new_game "Ann" 42)) as (_ & _ & _ & Hadd).
  rewrite (Hadd Hnd). reflexivity.
Defined.

(** ** Attributes that only go up *)

(** X5: no choice lowers power, notoriety or the bond, as long as they are
    not above 100 to begin with; and the bond moves only on the three tags
    [train_sync], [oath_sworn] and [whisper_together]. *)
Theorem power_notoriety_bond_never_drop :
  forall (st : StoryState) (tag : string),
    (power st <= 100 -> power st <= power (fst (apply_choice st tag))) /\
    (notoriety st <= 100 -> notoriety st <= notoriety (fst (apply_choice st tag))) /\
    (bond_demon_lord st <= 100 ->
     bond_demon_lord st <= bond_demon_lord (fst (apply_choice st tag))) /\
    (tag ∉ ["train_sync"; "oath_sworn"; "whisper_together"] ->
     bond_demon_lord (fst (apply_choice st tag)) = bond_demon_lord st).
Proof.
  intros st tag.
  split; [| split; [| split]].
  - intros Hp. unfold apply_choice. split_tag_chain; cbn; unfold clamp; lia.
  - intros Hn. unfold apply_choice. split_tag_chain; cbn; unfold clamp; lia.
  - intros Hb. unfold apply_choice. split_tag_chain; cbn; unfold clamp; lia.
  - intros Hout.
    assert (H1 : String.eqb tag "train_sync" = false).
    { apply String.eqb_neq. intros ->. apply Hout. elem_by_compute. }
    assert (H2 : String.eqb tag "oath_sworn" = false).
    { apply String.eqb_neq. intros ->. apply Hout. elem_by_compute. }
    assert (H3 : String.eqb tag "whisper_together" = false).
    { apply String.eqb_neq. intros ->. apply Hout. elem_by_compute. }
    unfold apply_choice. rewrite H1, H2, H3. split_tag_chain; reflexivity.
Qed.

Lemma power_notoriety_bond_never_drop_witness :
  power (new_game "Ann" 42) <= power (fst (apply_choice (new_game "Ann" 42) "hunt_duel")) /\
  bond_demon_lord (fst (apply_choice (new_game "Ann" 42) "hunt_duel"))
  = bond_demon_lord (new_game "Ann" 42).
Proof.
  destruct (power_notoriety_bond_never_drop (new_game "Ann" 42) "hunt_duel")
    as (Hp & _ & _ & Hb).
  split; [apply Hp; simpl; lia | apply Hb; elem_by_compute].
Defined.

(** ** The choices a scene offers *)

(** A decidable statement about literals, settled by evaluation. *)
Ltac by_evaluation :=
  match goal with
  | |- ?P => apply (bool_decide_eq_true_1 P); vm_compute; reflexivity
  end.

Lemma dispatch_offers_known_tags (chosen : string) (st : StoryState) :
  (length (snd (snd (dispatch chosen st))) = 3%nat \/
   length (snd (snd (dispatch chosen st))) = 4%nat) /\
  Forall (fun tag => tag ∈ known_tags) (snd <$> snd (snd (dispatch chosen st))) /\
  NoDup (snd <$> snd (snd (dispatch chosen st))).
Proof.
  unfold dispatch.
  repeat match goal with
    | |- context [if String.eqb ?t ?k then _ else _] => destruct (String.eqb t k)
    end;
    cbn;
    (split; [first [by left | by right] | split]);
    by_evaluation.
Qed.

(** X6: every render returns a scene with three or four choices whose tags
    are pairwise distinct and all in the effect table of [apply_choice], so
    a listed choice never gets the fallback narration. *)
Theorem scenes_offer_known_tags :
  forall {G : Type} `{RandomSource G} (g : G) (st : StoryState),
    exists g' st' sc,
      generate_scene g st = Some (g', st', sc) /\
      (length (snd sc) = 3%nat \/ length (snd sc) = 4%nat) /\
      Forall (fun tag => tag ∈ known_tags) (snd <$> snd sc) /\
      NoDup (snd <$> snd sc).
Proof.
  intros G HG g st. unfold generate_scene.
  destruct (Z.eq_dec (chapter st) 0) as [Hz|Hnz].
  - unfold generate_scene_arch. rewrite (proj2 (Z.eqb_eq _ _) Hz).
    destruct (choice_total g demon_names demon_names_nonempty) as (n & g' & Hc & _).
    unfold intro_scene. rewrite Hc.
    repeat case_match; simplify_eq; cbn;
      eexists _, _, _; (split; [reflexivity |]); cbn;
      (split; [by right | split]); by_evaluation.
  - destruct (generate_scene_later g st Hnz) as (chosen & g' & _ & _ & ->).
    eexists _, _, _. split; [reflexivity |]. apply dispatch_offers_known_tags.
Qed.

(** X7: a tag of the effect table never gets the fallback narration; with
    the unknown-tag case, the fallback is returned exactly for the tags
    outside the table. *)
Theorem fallback_only_for_unknown_tags :
  forall (st : StoryState) (tag : string),
    snd (apply_choice st tag) = fallback_narration <-> tag ∉ known_tags.
Proof.
  intros st tag. split.
  - intros Hfall Hin. revert Hfall. unfold known_tags in Hin.
    elem_cases Hin; cbn; unfold fallback_narration; discriminate.
  - intros Hout.
    assert (Hnoop : apply_choice st tag
                    = (set_chapter (chapter st + 1) st, fallback_narration)).
    { unfold apply_choice.
      repeat match goal with
        | |- context [String.eqb tag ?k] =>
            rewrite (unknown_tag_eqb tag k Hout (known_tag_elem k eq_refl))
        end.
      reflexivity. }
    by rewrite Hnoop.
Qed.

(** ** The candidate list *)

(** X8: the candidate list never holds an archetype twice, holds between
    three and nine archetypes, and holds only archetypes that the dispatch
    knows by name, so the generic fallback of the dispatch is never
    taken. *)
Theorem candidates_distinct_and_dispatched :
  forall st : StoryState,
    NoDup (eligible_archetypes st) /\
    (3 <= length (eligible_archetypes st) <= 9)%nat /\
    Forall (fun a => a ∈ dispatched_archetypes) (eligible_archetypes st).
Proof.
  intros st. unfold eligible_archetypes.
  destruct (flag_on "met_demon_lord" st), (trust_demon_lord st >=? 60)%Z eqn:H60,
    (flag_on "oath_bound" st), (trust_demon_lord st >=? 30)%Z eqn:H30,
    (flag_on "vow_revenge" st), (morality st >=? 40)%Z eqn:H40,
    (morality st <=? -40)%Z eqn:Hm40;
    cbn [andb negb app];
    try (exfalso; rewrite Z.geb_leb in H40;
         apply Z.leb_le in H40; apply Z.leb_le in Hm40; lia);
    (split; [by_evaluation | split; [simpl; lia | by_evaluation]]).
Qed.

(** ** Flags that stay set *)

Lemma flag_on_store_other (k k' : string) (v : flagval) (st : StoryState) :
  k <> k' -> flag_on k' (flag_store k v st) = flag_on k' st.
Proof. intros Hne. unfold flag_on, flag_store. simpl. by rewrite lookup_insert_ne. Qed.

Lemma apply_choice_keeps_oath (st : StoryState) (tag : string) :
  flag_on "oath_bound" st = true ->
  flag_on "oath_bound" (fst (apply_choice st tag)) = true.
Proof.
  intros Hon. unfold apply_choice.
  split_tag_chain; cbn; unfold flag_on in *; cbn;
    rewrite ?lookup_insert_ne by done; rewrite ?lookup_insert_eq; done.
Qed.

Lemma apply_choice_keeps_vow (st : StoryState) (tag : string) :
  flag_on "vow_revenge" st = true ->
  flag_on "vow_revenge" (fst (apply_choice st tag)) = true.
Proof.
  intros Hon. unfold apply_choice.
  split_tag_chain; cbn; unfold flag_on in *; cbn;
    rewrite ?lookup_insert_ne by done; rewrite ?lookup_insert_eq; done.
Qed.

Lemma apply_all_keeps (P : StoryState -> Prop) (st : StoryState) (tags : list string) :
  (forall s tag, P s -> P (fst (apply_choice s tag))) ->
  P st -> P (apply_all st tags).
Proof.
  intros Hstep. revert st. induction tags as [|tag rest IH]; intros st HP; [done |].
  change (apply_all st (tag :: rest))
    with (apply_all (fst (apply_choice st tag)) rest).
  apply IH. by apply Hstep.
Qed.

(** X9: the oath is sworn once: after [oath_sworn], whatever choices are
    applied next, [oath_bound] stays set and the oath scene is never a
    candidate again. *)
Theorem oath_scene_never_returns :
  forall (st : StoryState) (tags : list string),
    flag_on "oath_bound" (apply_all (fst (apply_choice st "oath_sworn")) tags) = true /\
    ("oath_bond" ∉ eligible_archetypes
                     (apply_all (fst (apply_choice st "oath_sworn")) tags)).
Proof.
  intros st tags.
  assert (Hon : flag_on "oath_bound"
                  (apply_all (fst (apply_choice st "oath_sworn")) tags) = true).
  { apply (apply_all_keeps (fun s => flag_on "oath_bound" s = true)).
    - intros s tag. apply apply_choice_keeps_oath.
    - unfold flag_on. cbn. by rewrite lookup_insert_eq. }
  split; [exact Hon |].
  set (s := apply_all _ tags) in *.
  unfold eligible_archetypes. rewrite Hon.
  destruct (flag_on "met_demon_lord" s), (trust_demon_lord s >=? 60)%Z,
    (trust_demon_lord s >=? 30)%Z, (flag_on "vow_revenge" s),
    (morality s >=? 40)%Z, (morality s <=? -40)%Z;
    cbn [andb negb app]; elem_by_compute.
Qed.

(** X10: a vow of revenge is never taken back: once [vow_revenge] is set
    (by [intro_vengeance] or [council_raids]) it stays set under every later
    choice, so the spy report and the ambush stay among the candidates. *)
Theorem vow_of_revenge_is_kept :
  forall (st : StoryState) (tags : list string),
    flag_on "vow_revenge" st = true ->
    flag_on "vow_revenge" (apply_all st tags) = true /\
    ("spy_report" ∈ eligible_archetypes (apply_all st tags)) /\
    ("ambush_king_scouts" ∈ eligible_archetypes (apply_all st tags)).
Proof.
  intros st tags Hvow.
  assert (Hon : flag_on "vow_revenge" (apply_all st tags) = true).
  { apply (apply_all_keeps (fun s => flag_on "vow_revenge" s = true)); [| done].
    intros s tag. apply apply_choice_keeps_vow. }
  split; [exact Hon |].
  set (s := apply_all st tags) in *.
  unfold eligible_archetypes. rewrite Hon.
  destruct (flag_on "met_demon_lord" s), (trust_demon_lord s >=? 60)%Z,
    (flag_on "oath_bound" s), (trust_demon_lord s >=? 30)%Z,
    (morality s >=? 40)%Z, (morality s <=? -40)%Z;
    cbn [andb negb app]; split; elem_by_compute.
Qed.

Lemma vow_of_revenge_is_kept_witness :
  flag_on "vow_revenge" (fst (apply_choice (new_game "Ann" 42) "intro_vengeance")) = true /\
  ("spy_report" ∈ eligible_archetypes
     (apply_all (fst (apply_choice (new_game "Ann" 42) "intro_vengeance"))
        ["camp_probe"; "oath_refuse"])).
Proof.
  assert (Hvow : flag_on "vow_revenge"
                   (fst (apply_choice (new_game "Ann" 42) "intro_vengeance")) = true)
    by reflexivity.
  split; [exact Hvow |].
  destruct (vow_of_revenge_is_kept
              (fst (apply_choice (new_game "Ann" 42) "intro_vengeance"))
              ["camp_probe"; "oath_refuse"] Hvow) as (_ & Hspy & _).
  exact Hspy.
Defined.

(** ** The introductory scene *)

Lemma flag_setdefault_frame (k : string) (v : flagval) (st : StoryState) :
  flag_setdefault k v st = set_flags (flags (flag_setdefault k v st)) st.
Proof.
  unfold flag_setdefault. destruct (flags st !! k); [by destruct st | reflexivity].
Qed.

Lemma flag_setdefault_keeps (k k' : string) (v x : flagval) (st : StoryState) :
  flags st !! k' = Some x -> flags (flag_setdefault k v st) !! k' = Some x.
Proof.
  intros Hx. unfold flag_setdefault. destruct (flags st !! k) eqn:Hk; [done |].
  simpl. rewrite lookup_insert_ne; [done |]. intros ->. congruence.
Qed.

Lemma flag_setdefault_other (k k' : string) (v : flagval) (st : StoryState) :
  k <> k' -> flags (flag_setdefault k v st) !! k' = flags st !! k'.
Proof.
  intros Hne. unfold flag_setdefault. destruct (flags st !! k); [done |].
  simpl. by rewrite lookup_insert_ne.
Qed.

Lemma intro_prepared_frame (st : StoryState) :
  intro_prepared st
  = set_flags (flags (intro_prepared st))
      (set_history (history st ++ [intro_history_line])
         (set_location "Demon Forest — Thornsfall Edge" (set_chapter 1 st))).
Proof.
  unfold intro_prepared, history_append.
  rewrite (flag_setdefault_frame "seeking_truth").
  rewrite (flag_setdefault_frame "vow_revenge").
  rewrite (flag_setdefault_frame "allied").
  rewrite (flag_setdefault_frame "met_demon_lord").
  rewrite (flag_setdefault_frame "betrayed").
  reflexivity.
Qed.

Lemma intro_prepared_keeps (st : StoryState) (k : string) (x : flagval) :
  flags st !! k = Some x -> flags (intro_prepared st) !! k = Some x.
Proof.
  intros Hx. unfold intro_prepared, history_append. cbn [flags set_history].
  by repeat apply flag_setdefault_keeps.
Qed.

Lemma intro_prepared_name (st : StoryState) :
  flags (intro_prepared st) !! "demon_lord_name" = flags st !! "demon_lord_name".
Proof.
  unfold intro_prepared, history_append. cbn [flags set_history].
  by rewrite !flag_setdefault_other.
Qed.

Section Intro.
Context {G : Type} `{RandomSource G}.

Lemma intro_scene_unnamed (g : G) (st : StoryState) :
  flag_on "demon_lord_name" st = false ->
  exists n g' sc,
    choice g demon_names = Some (n, g') /\
    n ∈ demon_names /\
    intro_scene g st
    = Some (g', flag_store "demon_lord_name" (FStr n) (intro_prepared st), sc).
Proof.
  intros Hoff.
  destruct (choice_total g demon_names demon_names_nonempty) as (n & g' & Hc & Hn).
  exists n, g'. eexists. split; [exact Hc |]. split; [exact Hn |].
  unfold intro_scene. fold intro_history_line. fold (intro_prepared st).
  rewrite intro_prepared_name. unfold flag_on in Hoff.
  destruct (flags st !! "demon_lord_name") as [v|]; [rewrite Hoff |];
    rewrite Hc; reflexivity.
Qed.

Lemma intro_scene_named (g : G) (st : StoryState) (v : flagval) :
  flags st !! "demon_lord_name" = Some v ->
  truthy v = true ->
  exists sc,
    intro_scene g st
    = Some (g, flag_store "demon_lord_name" v (intro_prepared st), sc).
Proof.
  intros Hv Ht. eexists.
  unfold intro_scene. fold intro_history_line. fold (intro_prepared st).
  rewrite intro_prepared_name, Hv, Ht. reflexivity.
Qed.

(** X11: at chapter 0 a render names the demon lord once: without a name
    in the flags it draws one of the eight names with a single draw and
    stores it; with a name already there it keeps the name and leaves the
    random source untouched. *)
Theorem intro_names_demon_lord_once :
  forall (g : G) (st : StoryState),
    chapter st = 0 ->
    (flag_on "demon_lord_name" st = false ->
     exists n g' st' sc,
       generate_scene g st = Some (g', st', sc) /\
       choice g demon_names = Some (n, g') /\
       n ∈ demon_names /\
       flags st' !! "demon_lord_name" = Some (FStr n)) /\
    (forall v,
        flags st !! "demon_lord_name" = Some v ->
        truthy v = true ->
        exists st' sc,
          generate_scene g st = Some (g, st', sc) /\
          flags st' !! "demon_lord_name" = Some v).
Proof.
  intros g st Hch. unfold generate_scene, generate_scene_arch.
  rewrite (proj2 (Z.eqb_eq _ _) Hch). split.
  - intros Hoff.
    destruct (intro_scene_unnamed g st Hoff) as (n & g' & sc & Hc & Hn & ->).
    exists n, g'. eexists _, sc. split; [reflexivity |].
    split; [exact Hc |]. split; [exact Hn |].
    simpl. apply lookup_insert_eq.
  - intros v Hv Ht.
    destruct (intro_scene_named g st v Hv Ht) as (sc & ->).
    eexists _, sc. split; [reflexivity |]. simpl. apply lookup_insert_eq.
Qed.

Lemma render_frame :
  forall (g : G) (st : StoryState),
    exists g' st' sc,
      generate_scene g st = Some (g', st', sc) /\
      name st' = name st /\ seed st' = seed st /\
      inventory st' = inventory st /\
      health st' = health st /\ power st' = power st /\
      morality st' = morality st /\ notoriety st' = notoriety st /\
      trust_demon_lord st' = trust_demon_lord st /\
      bond_demon_lord st' = bond_demon_lord st /\
      history st `prefix_of` history st' /\
      (forall k v, flags st !! k = Some v ->
                   k <> "demon_lord_name" \/ truthy v = true ->
                   flags st' !! k = Some v).
Proof.
  intros g st.
  destruct (Z.eq_dec (chapter st) 0) as [Hz|Hnz].
  - assert (Hshape : exists g' v sc,
               intro_scene g st
               = Some (g', flag_store "demon_lord_name" v (intro_prepared st), sc) /\
               (forall x, flags st !! "demon_lord_name" = Some x ->
                          truthy x = true -> v = x)).
    { destruct (flag_on "demon_lord_name" st) eqn:Hon.
      - unfold flag_on in Hon.
        destruct (flags st !! "demon_lord_name") as [v|] eqn:Hv; [| done].
        destruct (intro_scene_named g st v Hv Hon) as (sc & Hi).
        exists g, v, sc. split; [exact Hi |]. by intros x [= ->] _.
      - destruct (intro_scene_unnamed g st Hon) as (n & g' & sc & _ & _ & Hi).
        exists g', (FStr n), sc. split; [exact Hi |].
        intros x Hx Ht. unfold flag_on in Hon. rewrite Hx in Hon. congruence. }
    destruct Hshape as (g' & v & sc & Hi & Hsame).
    exists g', (flag_store "demon_lord_name" v (intro_prepared st)), sc.
    split.
    { unfold generate_scene, generate_scene_arch.
      by rewrite (proj2 (Z.eqb_eq _ _) Hz), Hi. }
    rewrite intro_prepared_frame. cbn.
    repeat split; try reflexivity.
    + by apply prefix_app_r.
    + intros k x Hk Hor.
      destruct (decide (k = "demon_lord_name")) as [->|Hne].
      * destruct Hor as [Hor|Ht]; [done |].
        rewrite (Hsame x Hk Ht). apply lookup_insert_eq.
      * rewrite lookup_insert_ne by done. by apply intro_prepared_keeps.
  - destruct (generate_scene_later g st Hnz) as (chosen & g' & _ & _ & Hgen).
    exists g', (fst (dispatch chosen st)), (snd (dispatch chosen st)).
    split; [unfold generate_scene; by rewrite Hgen |].
    rewrite (dispatch_frame chosen st). cbn. repeat split; try reflexivity.
    by intros k v Hk _.
Qed.

(** X12: a render, the introductory one included, always returns a scene
    and never touches the name, the seed, the inventory or the six bounded
    attributes; it keeps every flag it finds, value included (except a
    demon lord's name that is falsy, which is redrawn), and the old history
    is a prefix of the new one. *)
Theorem render_keeps_attributes_and_flags :
  forall (g : G) (st : StoryState),
    exists g' st' sc,
      generate_scene g st = Some (g', st', sc) /\
      name st' = name st /\ seed st' = seed st /\
      inventory st' = inventory st /\
      health st' = health st /\ power st' = power st /\
      morality st' = morality st /\ notoriety st' = notoriety st /\
      trust_demon_lord st' = trust_demon_lord st /\
      bond_demon_lord st' = bond_demon_lord st /\
      history st `prefix_of` history st' /\
      (forall k v, flags st !! k = Some v ->
                   k <> "demon_lord_name" \/ truthy v = true ->
                   flags st' !! k = Some v).
Proof. exact render_frame. Qed.

End Intro.

Lemma intro_names_demon_lord_once_witness :
  chapter (new_game "Ann" 42) = 0 /\
  flag_on "demon_lord_name" (new_game "Ann" 42) = false /\
  exists n g' st' sc,
    generate_scene (rng_seed 42 : Z) (new_game "Ann" 42) = Some (g', st', sc) /\
    n ∈ demon_names /\
    flags st' !! "demon_lord_name" = Some (FStr n).
Proof.
  assert (Hch : chapter (new_game "Ann" 42) = 0) by reflexivity.
  assert (Hoff : flag_on "demon_lord_name" (new_game "Ann" 42) = false) by reflexivity.
  split; [exact Hch |]. split; [exact Hoff |].
  destruct (intro_names_demon_lord_once (rng_seed 42 : Z) (new_game "Ann" 42) Hch)
    as (Hdraw & _).
  destruct (Hdraw Hoff) as (n & g' & st' & sc & Hgen & _ & Hn & Hname).
  exists n, g', st', sc. split; [exact Hgen |]. split; [exact Hn | exact Hname].
Defined.

Lemma render_keeps_attributes_and_flags_witness :
  exists g' st' sc,
    generate_scene (rng_seed 7 : Z)
      (flag_store "vow_revenge" (FBool true) (new_game "Ann" 7))
    = Some (g', st', sc) /\
    flags st' !! "vow_revenge" = Some (FBool true).
Proof.
  destruct (render_keeps_attributes_and_flags (rng_seed 7 : Z)
              (flag_store "vow_revenge" (FBool true) (new_game "Ann" 7)))
    as (g' & st' & sc & Hgen & _ & _ & _ & _ & _ & _ & _ & _ & _ & _ & Hkeep).
  exists g', st', sc. split; [exact Hgen |].
  apply Hkeep; [reflexivity | by left].
Defined.

Lemma apply_choice_containers_grow_witness :
  ("Rusty Sword" ∈ inventory (new_game "Ann" 42)) /\
  ("Rusty Sword" ∈ inventory (fst (apply_choice (new_game "Ann" 42) "ruins_force"))).
Proof.
  assert (Hin : "Rusty Sword" ∈ inventory (new_game "Ann" 42)) by elem_by_compute.
  split; [exact Hin |].
  destruct (apply_choice_containers_grow (new_game "Ann" 42) "ruins_force")
    as (_ & _ & Hinv).
  exact (Hinv "Rusty Sword" Hin).
Defined.

(** ** Invariants of reachable states *)

Lemma apply_choice_inventory_NoDup (st : StoryState) (tag : string) :
  NoDup (inventory st) -> NoDup (inventory (fst (apply_choice st tag))).
Proof.
  intros Hnd. unfold apply_choice.
  split_tag_chain; cbn; first [exact Hnd | apply dict_fromkeys_NoDup].
Qed.

Section ReachableInvariants.
Context {G : Type} `{RandomSource G}.

(** X13: in every reachable state the inventory has no duplicates and
    still holds the two starting items, the chapter is not negative, and
    the player's name is not empty. *)
Theorem reachable_inventory_and_chapter :
  forall st : StoryState,
    reachable st ->
    NoDup (inventory st) /\
    ("Torn Cloak" ∈ inventory st) /\ ("Rusty Sword" ∈ inventory st) /\
    0 <= chapter st /\
    name st <> EmptyString.
Proof.
  induction 1 as [answer seed_ | g st g' st' sc _ IH Hgen | st tag _ IH
                 | st d _ IH _ | st st' _ IH Hload].
  - split; [by_evaluation |]. split; [elem_by_compute |].
    split; [elem_by_compute |]. split; [simpl; lia |].
    by destruct answer.
  - destruct IH as (Hnd & Hc & Hs & Hch & Hname).
    destruct (render_frame g st)
      as (g2 & st2 & sc2 & Hgen2 & Hn & _ & Hinv & _).
    rewrite Hgen2 in Hgen. injection Hgen as <- <- <-.
    rewrite Hinv, Hn. repeat split; try done.
    destruct (Z.eq_dec (chapter st) 0) as [Hz|Hnz].
    + destruct (flag_on "demon_lord_name" st) eqn:Hon.
      * unfold flag_on in Hon.
        destruct (flags st !! "demon_lord_name") as [v|] eqn:Hv; [| done].
        destruct (intro_scene_named g st v Hv Hon) as (sc3 & Hi).
        unfold generate_scene, generate_scene_arch in Hgen2.
        rewrite (proj2 (Z.eqb_eq _ _) Hz), Hi in Hgen2.
        injection Hgen2 as <- <- <-. rewrite intro_prepared_frame. simpl. lia.
      * destruct (intro_scene_unnamed g st Hon) as (n & g3 & sc3 & _ & _ & Hi).
        unfold generate_scene, generate_scene_arch in Hgen2.
        rewrite (proj2 (Z.eqb_eq _ _) Hz), Hi in Hgen2.
        injection Hgen2 as <- <- <-. rewrite intro_prepared_frame. simpl. lia.
    + destruct (generate_scene_later g st Hnz) as (chosen & g3 & _ & _ & Hgen3).
      unfold generate_scene in Hgen2. rewrite Hgen3 in Hgen2.
      injection Hgen2 as <- <- <-. rewrite dispatch_frame. simpl. lia.
  - destruct IH as (Hnd & Hc & Hs & Hch & Hname).
    destruct (apply_choice_grows st tag) as (_ & _ & Hinv).
    destruct (apply_choice_identity st tag) as (Hn & _).
    split; [by apply apply_choice_inventory_NoDup |].
    split; [by apply Hinv |]. split; [by apply Hinv |].
    split; [rewrite apply_choice_chapter; lia | by rewrite Hn].
  - exact IH.
  - rewrite record_of_from_dict_to_dict in Hload. by simplify_eq.
Qed.

End ReachableInvariants.

Lemma reachable_inventory_and_chapter_witness :
  reachable (G := Z)
    (fst (apply_choice (fst (apply_choice (new_game "" 42) "ruins_force"))
            "ruins_force")) /\
  NoDup (inventory
           (fst (apply_choice (fst (apply_choice (new_game "" 42) "ruins_force"))
                   "ruins_force"))).
Proof.
  assert (Hreach : reachable (G := Z)
            (fst (apply_choice (fst (apply_choice (new_game "" 42) "ruins_force"))
                    "ruins_force"))).
  { apply reach_choice, reach_choice, reach_new. }
  split; [exact Hreach |].
  destruct (reachable_inventory_and_chapter (G := Z) _ Hreach) as (Hnd & _).
  exact Hnd.
Defined.

(** ** The incidental drift *)

Lemma drift_frame :
  forall {G : Type} `{RandomSource G} (g : G) (st : StoryState),
    exists g' st',
      drift g st = Some (g', st') /\
      st' = set_health (health st') st /\
      (0 <= health st <= 100 ->
       0 <= health st' <= 100 /\ -2 <= health st' - health st <= 2).
Proof.
  intros G HG g st. unfold drift.
  destruct (_p 15 g) as [hit g1]. destruct hit.
  - destruct (choice_total g1 drift_steps) as (d & g2 & Hc & Hd); [done |].
    rewrite Hc. exists g2, (nudge_health d st).
    split; [reflexivity |]. split; [reflexivity |].
    intros Hb. unfold drift_steps in Hd. unfold nudge_health, clamp. simpl.
    elem_cases Hd; lia.
  - exists g1, st. split; [reflexivity |]. split; [by destruct st | lia].
Qed.

(** X14: the drift after a choice always completes, touches nothing but
    health, and on a health within bounds moves it by at most 2 and keeps
    it within bounds. *)
Theorem drift_nudges_health_only :
  forall {G : Type} `{RandomSource G} (g : G) (st : StoryState),
    exists g' st',
      drift g st = Some (g', st') /\
      st' = set_health (health st') st /\
      (0 <= health st <= 100 ->
       0 <= health st' <= 100 /\ -2 <= health st' - health st <= 2).
Proof. intros G HG. exact drift_frame. Qed.

Lemma drift_nudges_health_only_witness :
  0 <= health (new_game "Ann" 42) <= 100 /\
  exists g' st',
    drift (rng_seed 42 : Z) (new_game "Ann" 42) = Some (g', st') /\
    -2 <= health st' - health (new_game "Ann" 42) <= 2.
Proof.
  assert (Hb : 0 <= health (new_game "Ann" 42) <= 100) by (simpl; lia).
  split; [exact Hb |].
  destruct (drift_nudges_health_only (rng_seed 42 : Z) (new_game "Ann" 42))
    as (g' & st' & Hd & _ & Hstep).
  exists g', st'. split; [exact Hd |]. by apply Hstep.
Defined.

(** ** Which ending is shown *)

(** X15: each ending is returned exactly when its condition holds and no
    condition before it does, and no ending exactly when none of the five
    conditions holds; the five texts are pairwise different, so the text
    tells which rule fired. *)
Theorem each_ending_has_its_rule :
  forall st : StoryState,
    (check_ending st = Some ending_death <-> death_condition st = true) /\
    (check_ending st = Some (ending_alliance (demon_lord st)) <->
     death_condition st = false /\ alliance_condition st = true) /\
    (check_ending st = Some ending_sovereign <->
     death_condition st = false /\ alliance_condition st = false /\
     sovereign_condition st = true) /\
    (check_ending st = Some ending_guardian <->
     death_condition st = false /\ alliance_condition st = false /\
     sovereign_condition st = false /\ guardian_condition st = true) /\
    (check_ending st = Some ending_exile <->
     death_condition st = false /\ alliance_condition st = false /\
     sovereign_condition st = false /\ guardian_condition st = false /\
     exile_condition st = true) /\
    (check_ending st = None <->
     death_condition st = false /\ alliance_condition st = false /\
     sovereign_condition st = false /\ guardian_condition st = false /\
     exile_condition st = false).
Proof.
  intros st. rewrite check_ending_first_match. unfold ending_rules, first_match.
  generalize (demon_lord st). intros dl.
  destruct (death_condition st), (alliance_condition st), (sovereign_condition st),
    (guardian_condition st), (exile_condition st);
    repeat split; try (intros; reflexivity); try discriminate;
    try (intros H; decompose [and] H; discriminate).
Qed.
(** * Saving and loading *)

Lemma string_app_inj_r (s1 s2 t : string) : s1 +:+ t = s2 +:+ t -> s1 = s2.
Proof.
  assert (Hlen : forall a b, String.length (a +:+ b)
                             = (String.length a + String.length b)%nat).
  { intros a b. induction a as [|c a IH]; simpl; [done | by rewrite IH]. }
  revert s2. induction s1 as [|c s1 IH]; intros [|c2 s2] Heq.
  - reflexivity.
  - apply (f_equal String.length) in Heq.
    change (String.length t = S (String.length (s2 +:+ t))) in Heq.
    rewrite (Hlen s2 t) in Heq. lia.
  - apply (f_equal String.length) in Heq.
    change (S (String.length (s1 +:+ t)) = String.length t) in Heq.
    rewrite (Hlen s1 t) in Heq. lia.
  - change (String c (s1 +:+ t) = String c2 (s2 +:+ t)) in Heq.
    injection Heq as -> Heq. f_equal. by apply IH.
Qed.

Lemma string_app_inj_l (s t1 t2 : string) : s +:+ t1 = s +:+ t2 -> t1 = t2.
Proof.
  induction s as [|c s IH]; [done |].
  intros Heq. change (String c (s +:+ t1) = String c (s +:+ t2)) in Heq.
  injection Heq as Heq. by apply IH.
Qed.

Lemma slot_file_relative (s : string) : starts_with_slash ("slot_" +:+ s) = false.
Proof. reflexivity. Qed.

Lemma path_join_inj (a b1 b2 : string) :
  starts_with_slash b1 = false -> starts_with_slash b2 = false ->
  path_join a b1 = path_join a b2 -> b1 = b2.
Proof.
  unfold path_join. intros -> ->. destruct a as [|c a]; [done |].
  destruct (ends_with_slash (String c a)); intros Heq.
  - by apply string_app_inj_l in Heq.
  - apply string_app_inj_l in Heq. by apply (string_app_inj_l "/") in Heq.
Qed.

Lemma slot_path_inj (mgr : SaveManager) (a b : Z) :
  slot_path mgr a = slot_path mgr b -> a = b.
Proof.
  unfold slot_path. intros Heq.
  apply path_join_inj in Heq; [| apply slot_file_relative | apply slot_file_relative].
  apply string_app_inj_l in Heq.
  apply string_app_inj_r in Heq.
  exact (pretty_Z_inj a b Heq).
Qed.

Lemma save_in_range (mgr : SaveManager) (now : Z) (fs : gmap string file)
    (slot : Z) (st : StoryState) :
  1 <= slot <= num_slots mgr ->
  save mgr now fs slot st
  = Saved (<[slot_path mgr slot :=
               FJson (VDict (<["state" := VDict (to_dict st)]>
                               (<["timestamp" := VInt now]>
                                  (<["version" := VInt 1]> ∅))))]> fs)
      (slot_path mgr slot).
Proof.
  intros [Hlo Hhi]. unfold save.
  destruct (Z.ltb_spec slot 1); [lia |].
  rewrite Z.gtb_ltb. destruct (Z.ltb_spec (num_slots mgr) slot); [lia |].
  reflexivity.
Qed.

Lemma load_after_save (mgr : SaveManager) (now : Z) (fs : gmap string file)
    (slot : Z) (st : StoryState) :
  1 <= slot <= num_slots mgr ->
  exists fs',
    save mgr now fs slot st = Saved fs' (slot_path mgr slot) /\
    load mgr fs' slot = Ok (to_dict st).
Proof.
  intros Hr. eexists. split; [by apply save_in_range |].
  unfold load. rewrite lookup_insert_eq.
  rewrite lookup_insert_eq. simpl. apply from_dict_to_dict.
Qed.

(** X16: a state saved to a slot between 1 and [num_slots] is the state
    that loading the slot returns, whatever the slot held before: the
    record loaded has the serialized state as its attributes. *)
Theorem save_then_load :
  forall (mgr : SaveManager) (now : Z) (fs : gmap string file) (slot : Z)
         (st : StoryState),
    1 <= slot <= num_slots mgr ->
    exists fs',
      save mgr now fs slot st = Saved fs' (slot_path mgr slot) /\
      load mgr fs' slot = Ok (to_dict st) /\
      record_of (load mgr fs' slot) = Some st.
Proof.
  intros mgr now fs slot st Hr.
  destruct (load_after_save mgr now fs slot st Hr) as (fs' & Hsave & Hload).
  exists fs'. split; [exact Hsave |]. split; [exact Hload |].
  rewrite Hload. apply as_story_state_to_dict.
Qed.

Lemma save_then_load_witness :
  1 <= 3 <= num_slots sample_saver /\
  exists fs',
    save sample_saver 1700000000 ∅ 3 (new_game "Ann" 42)
    = Saved fs' (slot_path sample_saver 3) /\
    record_of (load sample_saver fs' 3) = Some (new_game "Ann" 42).
Proof.
  assert (Hr : 1 <= 3 <= num_slots sample_saver)
    by (vm_compute; split; discriminate).
  split; [exact Hr |].
  destruct (save_then_load sample_saver 1700000000 ∅ 3 (new_game "Ann" 42) Hr)
    as (fs' & Hsave & _ & Hload).
  exists fs'. split; [exact Hsave | exact Hload].
Defined.

Lemma save_writes_one_file (mgr : SaveManager) (now : Z) (fs : gmap string file)
    (slot : Z) (st : StoryState) :
  (save mgr now fs slot st = SaveRaises ValueError
   <-> slot < 1 \/ num_slots mgr < slot) /\
  (forall fs' path,
      save mgr now fs slot st = Saved fs' path ->
      path = slot_path mgr slot /\
      is_Some (fs' !! path) /\
      forall q, q <> path -> fs' !! q = fs !! q).
Proof.
  destruct (decide (1 <= slot <= num_slots mgr)) as [Hr|Hr].
  - rewrite (save_in_range mgr now fs slot st Hr). split.
    + split; [discriminate | lia].
    + intros fs' path [= <- <-]. split; [reflexivity |].
      split; [rewrite lookup_insert_eq; eauto |].
      intros q Hq. by rewrite lookup_insert_ne.
  - assert (Herr : save mgr now fs slot st = SaveRaises ValueError).
    { unfold save. rewrite Z.gtb_ltb.
      destruct (Z.ltb_spec slot 1); [reflexivity |].
      destruct (Z.ltb_spec (num_slots mgr) slot); [reflexivity | lia]. }
    rewrite Herr. split; [split; [lia | reflexivity] | discriminate].
Qed.

(** X17: [save] raises [ValueError] exactly for a slot below 1 or above
    [num_slots], and then writes nothing; otherwise it writes the file of
    that slot and no other file. *)
Theorem save_checks_slot_and_writes_one_file :
  forall (mgr : SaveManager) (now : Z) (fs : gmap string file) (slot : Z)
         (st : StoryState),
    (save mgr now fs slot st = SaveRaises ValueError
     <-> slot < 1 \/ num_slots mgr < slot) /\
    (forall fs' path,
        save mgr now fs slot st = Saved fs' path ->
        path = slot_path mgr slot /\
        is_Some (fs' !! path) /\
        forall q, q <> path -> fs' !! q = fs !! q).
Proof. exact save_writes_one_file. Qed.

Lemma save_checks_slot_and_writes_one_file_witness :
  save sample_saver 1700000000 ∅ 9 (new_game "Ann" 42) = SaveRaises ValueError /\
  save sample_saver 1700000000 ∅ 0 (new_game "Ann" 42) = SaveRaises ValueError.
Proof.
  split.
  - apply (save_checks_slot_and_writes_one_file
             sample_saver 1700000000 ∅ 9 (new_game "Ann" 42)).
    right. vm_compute. reflexivity.
  - apply (save_checks_slot_and_writes_one_file
             sample_saver 1700000000 ∅ 0 (new_game "Ann" 42)).
    left. vm_compute. reflexivity.
Defined.

(** X18: saving to one slot leaves every other slot as it was: what
    loading another slot gives does not change. *)
Theorem save_leaves_other_slots :
  forall (mgr : SaveManager) (now : Z) (fs fs' : gmap string file)
         (a b : Z) (st : StoryState) (path : string),
    a <> b ->
    save mgr now fs a st = Saved fs' path ->
    load mgr fs' b = load mgr fs b.
Proof.
  intros mgr now fs fs' a b st path Hne Hsave.
  destruct (save_writes_one_file mgr now fs a st) as [_ Hone].
  destruct (Hone fs' path Hsave) as (-> & _ & Hframe).
  unfold load. rewrite Hframe; [reflexivity |].
  intros Heq. apply Hne. symmetry. by apply (slot_path_inj mgr).
Qed.

Lemma save_leaves_other_slots_witness :
  exists fs1 fs2 p1 p2,
    save sample_saver 10 ∅ 2 (new_game "Ann" 42) = Saved fs1 p1 /\
    save sample_saver 20 fs1 5 (new_game "Bo" 7) = Saved fs2 p2 /\
    load sample_saver fs2 2 = Ok (to_dict (new_game "Ann" 42)).
Proof.
  destruct (load_after_save sample_saver 10 ∅ 2 (new_game "Ann" 42))
    as (fs1 & Hs1 & Hl1); [vm_compute; split; discriminate |].
  destruct (load_after_save sample_saver 20 fs1 5 (new_game "Bo" 7))
    as (fs2 & Hs2 & _); [vm_compute; split; discriminate |].
  exists fs1, fs2, (slot_path sample_saver 2), (slot_path sample_saver 5).
  split; [exact Hs1 |]. split; [exact Hs2 |].
  rewrite <- Hl1.
  apply (save_leaves_other_slots sample_saver 20 fs1 fs2 5 2 (new_game "Bo" 7)
           (slot_path sample_saver 5));
    [discriminate | exact Hs2].
Defined.

(** X19: [load] does not check the slot number: for any slot it raises
    [FileNotFoundError] when the slot's file is missing; a file that does
    not decode makes it raise the decoding error, and one that decodes to
    something other than a mapping, or whose state is not a mapping, makes
    it raise [AttributeError]; a mapping without a state entry loads as a
    default-constructed state. *)
Theorem load_missing_corrupt_and_partial :
  forall (mgr : SaveManager) (fs : gmap string file) (slot : Z),
    (fs !! slot_path mgr slot = None ->
     load mgr fs slot = Raises FileNotFoundError) /\
    (fs !! slot_path mgr slot = Some FGarbage ->
     load mgr fs slot = Raises JSONDecodeError) /\
    (forall v, fs !! slot_path mgr slot = Some (FJson v) ->
               (forall data, v <> VDict data) ->
               load mgr fs slot = Raises AttributeError) /\
    (forall data v, fs !! slot_path mgr slot = Some (FJson (VDict data)) ->
                    data !! "state" = Some v ->
                    (forall d, v <> VDict d) ->
                    load mgr fs slot = Raises AttributeError) /\
    (forall data, fs !! slot_path mgr slot = Some (FJson (VDict data)) ->
                  data !! "state" = None ->
                  load mgr fs slot = Ok (to_dict default_state) /\
                  record_of (load mgr fs slot) = Some default_state).
Proof.
  intros mgr fs slot.
  assert (Hempty : from_dict ∅ = Ok (to_dict default_state)).
  { rewrite <- (from_dict_to_dict default_state). unfold from_dict.
    rewrite !merge_defaults_union, union_defaults_to_dict.
    by rewrite (left_id_L ∅ (∪)). }
  unfold load. split; [| split; [| split; [| split]]].
  - intros Hfile. by rewrite Hfile.
  - intros Hfile. by rewrite Hfile.
  - intros v Hfile Hnd. rewrite Hfile.
    destruct v; try reflexivity. by destruct (Hnd m).
  - intros data v Hfile Hstate Hnd. rewrite Hfile, Hstate.
    destruct v; try reflexivity. by destruct (Hnd m).
  - intros data Hfile Hstate. rewrite Hfile, Hstate.
    change (from_dict ∅ = Ok (to_dict default_state) /\
            record_of (from_dict ∅) = Some default_state).
    rewrite Hempty. split; [reflexivity |]. apply as_story_state_to_dict.
Qed.

Lemma load_missing_corrupt_and_partial_witness :
  load sample_saver ∅ 99 = Raises FileNotFoundError /\
  record_of (load sample_saver
               {[slot_path sample_saver 1 := FJson (VDict {["version" := VInt 1]})]} 1)
  = Some default_state.
Proof.
  split.
  - apply (load_missing_corrupt_and_partial sample_saver ∅ 99).
    apply lookup_empty.
  - apply (load_missing_corrupt_and_partial sample_saver
             {[slot_path sample_saver 1 := FJson (VDict {["version" := VInt 1]})]} 1)
      with (data := {["version" := VInt 1]});
      [apply lookup_singleton_eq | apply lookup_singleton_ne; discriminate].
Defined.

(** ** The list of saves *)

Lemma seqZ_sorted (m n : Z) : StronglySorted Z.lt (seqZ m n).
Proof.
  destruct (decide (n <= 0)) as [Hn|Hn]; [rewrite seqZ_nil by done; constructor |].
  rewrite <- (Z2Nat.id n) by lia. generalize (Z.to_nat n). clear Hn n.
  intros k. revert m. induction k as [|k IH]; intros m; [constructor |].
  rewrite seqZ_cons by lia.
  replace (Z.pred (Z.of_nat (S k))) with (Z.of_nat k) by lia.
  constructor; [apply IH |].
  apply Forall_forall. intros x Hx. apply elem_of_seqZ in Hx. lia.
Qed.

Lemma omap_keeps_order (g : Z -> option (Z * string)) (l : list Z) :
  (forall s x, g s = Some x -> x.1 = s) ->
  StronglySorted Z.lt l ->
  StronglySorted Z.lt ((omap g l).*1).
Proof.
  intros Hg Hl. induction Hl as [|s l Hl IH Hall]; [constructor |].
  simpl. destruct (g s) as [x|] eqn:Hx; [| exact IH].
  simpl. rewrite (Hg s x Hx). constructor; [exact IH |].
  apply Forall_forall. intros y Hy.
  apply list_elem_of_fmap in Hy as (z & -> & Hz).
  apply list_elem_of_omap in Hz as (s' & Hs' & Hz).
  rewrite (Hg s' z Hz). rewrite Forall_forall in Hall. by apply Hall.
Qed.

Lemma list_saves_elem (format_time : Z -> option string) (now : Z)
    (mgr : SaveManager) (fs : gmap string file) (s : Z) (ts : string) :
  (s, ts) ∈ list_saves format_time now mgr fs
  <-> 1 <= s <= num_slots mgr /\
      exists f, fs !! slot_path mgr s = Some f /\ ts = save_stamp format_time now f.
Proof.
  unfold list_saves. rewrite list_elem_of_omap. split.
  - intros (s' & Hs' & Hf). apply elem_of_seqZ in Hs'.
    destruct (fs !! slot_path mgr s') as [f|] eqn:Hfile; [| discriminate].
    injection Hf as <- <-. split; [lia |]. eauto.
  - intros (Hr & f & Hfile & ->). exists s. split; [apply elem_of_seqZ; lia |].
    by rewrite Hfile.
Qed.

(** X20: [list_saves] lists exactly the slots from 1 to [num_slots] whose
    file exists, each once and in ascending order, with the formatted time
    stamp of the file or ["<unknown>"]; a slot just saved is listed with the
    time of the save. *)
Theorem list_saves_lists_existing_slots :
  forall (format_time : Z -> option string) (now : Z) (mgr : SaveManager)
         (fs : gmap string file),
    (forall s ts,
        (s, ts) ∈ list_saves format_time now mgr fs
        <-> 1 <= s <= num_slots mgr /\
            exists f, fs !! slot_path mgr s = Some f /\
                      ts = save_stamp format_time now f) /\
    StronglySorted Z.lt (list_saves format_time now mgr fs).*1 /\
    (forall s t st fs' path,
        save mgr t fs s st = Saved fs' path ->
        (s, default "<unknown>" (format_time t))
        ∈ list_saves format_time now mgr fs').
Proof.
  intros format_time now mgr fs. split; [| split].
  - intros s ts. apply list_saves_elem.
  - apply omap_keeps_order; [| apply seqZ_sorted].
    intros s x Hx. destruct (fs !! slot_path mgr s); [| discriminate].
    by injection Hx as <-.
  - intros s t st fs' path Hsave.
    destruct (decide (1 <= s <= num_slots mgr)) as [Hr|Hr].
    + rewrite (save_in_range mgr t fs s st Hr) in Hsave.
      injection Hsave as <- <-.
      apply list_saves_elem. split; [exact Hr |].
      eexists. split; [apply lookup_insert_eq |].
      unfold save_stamp. by rewrite lookup_insert_ne, lookup_insert_eq.
    + destruct (save_writes_one_file mgr t fs s st) as [[_ Herr] _].
      rewrite Herr in Hsave by lia. discriminate.
Qed.

Lemma list_saves_lists_existing_slots_witness :
  exists fs' path,
    save sample_saver 1700000000 ∅ 3 (new_game "Ann" 42) = Saved fs' path /\
    ((3, "<unknown>") ∈ list_saves (fun _ => None) 0 sample_saver fs').
Proof.
  destruct (load_after_save sample_saver 1700000000 ∅ 3 (new_game "Ann" 42))
    as (fs' & Hsave & _); [vm_compute; split; discriminate |].
  exists fs', (slot_path sample_saver 3). split; [exact Hsave |].
  destruct (list_saves_lists_existing_slots (fun _ => None) 0 sample_saver ∅)
    as (_ & _ & Hlisted).
  exact (Hlisted 3 1700000000 (new_game "Ann" 42) fs' (slot_path sample_saver 3) Hsave).
Defined.

(** * The game loop *)

Section LoopFacts.
Context {G : Type} `{RandomSource G}.

Lemma generate_scene_arch_chapter (g g' : G) (st st' : StoryState) (sc : Scene)
    (arch : option string) :
  generate_scene_arch g st = Some (g', st', sc, arch) ->
  chapter st' = (if (chapter st =? 0)%Z then 1 else chapter st) /\
  (arch = None <-> chapter st = 0).
Proof.
  intros Hgen. destruct (Z.eqb_spec (chapter st) 0) as [Hz|Hnz].
  - unfold generate_scene_arch in Hgen. rewrite (proj2 (Z.eqb_eq _ _) Hz) in Hgen.
    destruct (intro_scene g st) as [[[g1 st1] sc1]|] eqn:Hi; [| done].
    injection Hgen as <- <- <- <-. split; [| done].
    destruct (flag_on "demon_lord_name" st) eqn:Hon.
    + unfold flag_on in Hon.
      destruct (flags st !! "demon_lord_name") as [v|] eqn:Hv; [| done].
      destruct (intro_scene_named g st v Hv Hon) as (sc3 & Hi3).
      rewrite Hi3 in Hi. injection Hi as <- <- <-.
      by rewrite intro_prepared_frame.
    + destruct (intro_scene_unnamed g st Hon) as (n & g3 & sc3 & _ & _ & Hi3).
      rewrite Hi3 in Hi. injection Hi as <- <- <-.
      by rewrite intro_prepared_frame.
  - destruct (generate_scene_later g st Hnz) as (chosen & g3 & _ & _ & Hgen3).
    rewrite Hgen3 in Hgen. injection Hgen as <- <- <- <-.
    split; [by rewrite dispatch_frame | done].
Qed.

Lemma drift_chapter (g g' : G) (st st' : StoryState) :
  drift g st = Some (g', st') -> chapter st' = chapter st.
Proof.
  intros Hd. destruct (drift_frame g st) as (g2 & st2 & Hd2 & Hf & _).
  rewrite Hd2 in Hd. injection Hd as <- <-. by rewrite Hf.
Qed.

(** X21: a save to a slot between 1 and [num_slots] followed at once by a
    load of that slot leaves the state as it is and the choices on screen
    in use, and restarts the random source from the seed of the state:
    the draws made since the start of the run are forgotten. *)
Theorem reload_keeps_state_and_reseeds :
  forall (saver : SaveManager) (clock : nat -> Z) (n : nat) (g : G)
         (st : StoryState) (fs : gmap string file)
         (choices : list (string * string)) (rest : list line) (slot : Z),
    1 <= slot <= num_slots saver ->
    exists fs',
      save saver (clock n) fs slot st = Saved fs' (slot_path saver slot) /\
      read_input saver clock (LSave (Some slot) :: LLoad (Some slot) :: rest)
        n g st fs choices
      = read_input saver clock rest (S (S n)) (rng_seed (seed st)) st fs' choices.
Proof.
  intros saver clock n g st fs choices rest slot Hr.
  destruct (load_after_save saver (clock n) fs slot st Hr) as (fs' & Hsave & Hload).
  exists fs'. split; [exact Hsave |].
  cbn [read_input]. rewrite Hsave, Hload, as_story_state_to_dict. reflexivity.
Qed.

Lemma scene_chapters_after (evs shown : list event) :
  scene_chapters (evs ++ shown) = (scene_chapters evs ++ scene_chapters shown)%list.
Proof. apply omap_app. Qed.

(** The headers that the inner loop shows from a scene at chapter 1 or
    later: the chapters after that of the scene on screen. *)
Lemma read_input_headers (lines : list line) :
  plays_on lines = true ->
  forall (saver : SaveManager) (clock : nat -> Z) (n : nat) (g : G)
         (st : StoryState) (fs : gmap string file)
         (choices : list (string * string)),
    1 <= chapter st ->
    exists shown g' st' fs',
      read_input saver clock lines n g st fs choices = Returned shown g' st' fs' /\
      scene_chapters shown
      = seqZ (chapter st + 1) (Z.of_nat (length (scene_chapters shown))).
Proof.
  induction lines as [|l rest IH]; intros Hplay saver clock n g st fs choices Hch.
  { eexists _, _, _, _. split; reflexivity. }
  simpl in Hplay. apply andb_true_iff in Hplay as [Hl Hrest].
  specialize (IH Hrest).
  destruct l as [| | | |[slot|]|[slot|]|idx| |]; try discriminate Hl;
    try (cbn [read_input]; by apply IH).
  - eexists _, _, _, _. split; reflexivity.
  - cbn [read_input]. destruct (save saver (clock n) fs slot st); by apply IH.
  - cbn [read_input].
    destruct ((1 <=? idx)%Z && (idx <=? Z.of_nat (length choices))%Z) eqn:Hr;
      [| by apply IH].
    destruct (listed_choice choices idx Hr) as (text & tag & ->).
    pose proof (apply_choice_chapter st tag) as Hc1.
    destruct (apply_choice st tag) as [st1 follow]. simpl in Hc1.
    destruct (drift_total g st1) as [[g2 st2] Hd]. rewrite Hd.
    pose proof (drift_chapter g g2 st1 st2 Hd) as Hc2.
    unfold scene_or_end. destruct (check_ending st2) as [ending|].
    { eexists _, _, _, _. split; reflexivity. }
    destruct (generate_scene_arch_total g2 st2) as [[[[g3 st3] sc] arch] Hgen].
    rewrite Hgen.
    destruct (generate_scene_arch_chapter g2 g3 st2 st3 sc arch Hgen) as [Hc3 _].
    destruct (Z.eqb_spec (chapter st2) 0) as [Hz|_]; [lia |].
    destruct (IH saver clock (S n) g3 st3 fs (snd sc)) as (shown & g4 & st4 & fs4 & -> & Hs);
      [lia |].
    eexists _, _, _, _. split; [reflexivity |].
    cbn [scene_chapters omap list_omap app length]. fold (scene_chapters shown).
    rewrite Nat2Z.inj_succ, seqZ_cons by lia.
    rewrite Z.pred_succ. f_equal; [lia |].
    etrans; [exact Hs |]. f_equal; lia.
Qed.

(** X22: from a state at chapter 0 or later, in a run without a load the
    headers of the scenes shown count the chapters up one by one, from 1
    for a new game and from the chapter of the state otherwise. *)
Theorem scene_headers_count_up :
  forall (saver : SaveManager) (clock : nat -> Z) (st : StoryState)
         (fs : gmap string file) (lines : list line),
    0 <= chapter st ->
    plays_on lines = true ->
    exists shown g st' fs',
      game_loop saver clock st fs lines = Returned shown g st' fs' /\
      scene_chapters shown
      = seqZ (Z.max 1 (chapter st)) (Z.of_nat (length (scene_chapters shown))).
Proof.
  intros saver clock st fs lines Hch Hplay. unfold game_loop, scene_or_end.
  destruct (check_ending st) as [ending|].
  { eexists _, _, _, _. split; reflexivity. }
  destruct (generate_scene_arch_total (rng_seed (seed st)) st)
    as [[[[g1 st1] sc] arch] Hgen].
  rewrite Hgen.
  destruct (generate_scene_arch_chapter _ g1 st st1 sc arch Hgen) as [Hc1 _].
  assert (Hmax : chapter st1 = Z.max 1 (chapter st)).
  { rewrite Hc1. destruct (Z.eqb_spec (chapter st) 0); lia. }
  destruct (read_input_headers lines Hplay saver clock 0%nat g1 st1 fs (snd sc))
    as (shown & g2 & st2 & fs2 & -> & Hs); [lia |].
  eexists _, _, _, _. split; [reflexivity |].
  cbn [scene_chapters omap list_omap app length]. fold (scene_chapters shown).
  rewrite Nat2Z.inj_succ, seqZ_cons by lia.
  rewrite Z.pred_succ, <- Hmax. f_equal.
  etrans; [exact Hs |]. f_equal; lia.
Qed.

End LoopFacts.

Lemma reload_keeps_state_and_reseeds_witness :
  1 <= 1 <= num_slots sample_saver /\
  exists fs',
    read_input (G := Z) sample_saver (fun _ => 0)
      (LSave (Some 1) :: LLoad (Some 1) :: [LPick 1]) 0 7 (new_game "Ann" 42) ∅ []
    = read_input (G := Z) sample_saver (fun _ => 0) [LPick 1] 2
        (rng_seed 42) (new_game "Ann" 42) fs' [].
Proof.
  assert (Hr : 1 <= 1 <= num_slots sample_saver) by (vm_compute; split; discriminate).
  split; [exact Hr |].
  destruct (reload_keeps_state_and_reseeds (G := Z) sample_saver (fun _ => 0) 0%nat 7
              (new_game "Ann" 42) ∅ [] [LPick 1] 1 Hr) as (fs' & _ & Hrun).
  exists fs'. exact Hrun.
Defined.

Lemma scene_headers_count_up_witness :
  exists shown g st' fs',
    game_loop (G := Z) sample_saver (fun _ => 0) (new_game "Ann" 42) ∅ chatty_run
    = Returned shown g st' fs' /\
    scene_chapters shown = seqZ 1 (Z.of_nat (length (scene_chapters shown))).
Proof.
  exact (scene_headers_count_up (G := Z) sample_saver (fun _ => 0)
           (new_game "Ann" 42) ∅ chatty_run ltac:(simpl; lia) eq_refl).
Defined.
